(** * Room session engine of the watch-together server

    A shallow embedding of the socket handlers of the server (its latest
    revision, with the recommendation queue and the bore vote) and the
    properties of the room state they maintain.

    Conventions of the embedding:
    - connection identities ([socket.id]), room identifiers, video
      identifiers and nicknames are strings;
    - playback offsets are whole seconds in [Z]; the vote tallies are the
      JavaScript values the handlers really store in [room.skipCounts]
      (see [jsval]);
    - a JavaScript [Map] is an insertion-ordered association list
      ([om_get], [om_set], [om_delete]); a [Set] of connection identities
      is a [gset string]; the plain object [room.skipCounts] is a
      [gmap string jsval] of its own properties, read through the
      prototype chain by [js_get];
    - room objects live in a store ([heap]) and are referred to by index,
      because a pending [setTimeout] callback keeps the room object it was
      created for, whatever happens to the registry afterwards;
    - every handler returns the new world and the list of events it emits,
      in order; [get_room_list] and [chat_message], which only read the
      rooms and answer, are embedded apart from the turns of the loop. *)

From Stdlib Require Import ZArith String List Bool Lia.
From stdpp Require Import base gmap sets list strings.

(** ** JavaScript values stored in a tally object *)

Inductive jsval :=
| VUndefined                (* a missing property *)
| VNum (n : Z)              (* a finite integral number *)
| VNaN
| VText                     (* a non-empty string that is not a numeral *)
| VObject.                  (* a function or object of [Object.prototype] *)

#[global] Instance jsval_eq_dec : EqDecision jsval.
Proof. solve_decision. Defined.

(** Property names every object literal inherits from [Object.prototype]. *)
Definition proto_keys : list string :=
  [ "__proto__"; "constructor"; "hasOwnProperty"; "isPrototypeOf";
    "propertyIsEnumerable"; "toLocaleString"; "toString"; "valueOf";
    "__defineGetter__"; "__defineSetter__"; "__lookupGetter__";
    "__lookupSetter__" ]%string.

Definition proto_key (k : string) : bool := bool_decide (k ∈ proto_keys).

(** [obj[k]]: the own property, else the inherited one, else [undefined]. *)
Definition js_get (obj : gmap string jsval) (k : string) : jsval :=
  match obj !! k with
  | Some v => v
  | None => if proto_key k then VObject else VUndefined
  end.

(** [obj[k] = v] for a primitive [v]: the inherited setter of ["__proto__"]
    ignores primitives; every other name becomes an own property. *)
Definition js_set (obj : gmap string jsval) (k : string) (v : jsval)
  : gmap string jsval :=
  if String.eqb k "__proto__" then obj else <[k := v]> obj.

(** [v || 0] *)
Definition js_or_zero (v : jsval) : jsval :=
  match v with
  | VUndefined | VNaN => VNum 0
  | VNum n => if (n =? 0)%Z then VNum 0 else VNum n
  | VText => VText
  | VObject => VObject
  end.

(** [v + 1]: addition on numbers, concatenation on everything that
    converts to a string. *)
Definition js_add1 (v : jsval) : jsval :=
  match v with
  | VNum n => VNum (n + 1)
  | VUndefined | VNaN => VNaN
  | VText | VObject => VText
  end.

(** [v - 1] *)
Definition js_sub1 (v : jsval) : jsval :=
  match v with
  | VNum n => VNum (n - 1)
  | _ => VNaN
  end.

(** [Math.max(v, 0)] *)
Definition js_max0 (v : jsval) : jsval :=
  match v with
  | VNum n => VNum (Z.max n 0)
  | _ => VNaN
  end.

(** [v >= size / 2], with [size] the size of a [Map]. *)
Definition js_ge_half (v : jsval) (size : nat) : bool :=
  match v with
  | VNum n => (Z.of_nat size <=? 2 * n)%Z
  | _ => false
  end.

(** [count > size / 2] for two sizes. *)
Definition js_gt_half (count size : nat) : bool := (size <? 2 * count)%nat.

(** The object literal [{ forward: 0, backward: 0 }]. *)
Definition zero_counts : gmap string jsval :=
  <["forward" := VNum 0]> (<["backward" := VNum 0]> ∅).

(** ** Insertion-ordered maps ([Map]) *)

Section omap.
Context {V : Type}.

Fixpoint om_get (m : list (string * V)) (k : string) : option V :=
  match m with
  | [] => None
  | (k', v) :: m' => if String.eqb k' k then Some v else om_get m' k
  end.

Definition om_has (m : list (string * V)) (k : string) : bool :=
  match om_get m k with Some _ => true | None => false end.

(** [m.set(k, v)]: an existing key keeps its position. *)
Fixpoint om_set (m : list (string * V)) (k : string) (v : V)
  : list (string * V) :=
  match m with
  | [] => [(k, v)]
  | (k', v') :: m' =>
      if String.eqb k' k then (k, v) :: m' else (k', v') :: om_set m' k v
  end.

(** [m.delete(k)]: the keys of a [Map] are distinct, the entry of [k]
    is dropped wherever it is. *)
Fixpoint om_delete (m : list (string * V)) (k : string)
  : list (string * V) :=
  match m with
  | [] => []
  | (k', v') :: m' =>
      if String.eqb k' k then om_delete m' k
      else (k', v') :: om_delete m' k
  end.

Definition om_size (m : list (string * V)) : nat := length m.

Definition om_values (m : list (string * V)) : list V := map snd m.
End omap.

(** ** Rooms *)

Record room := mkRoom {
  hostId : string;
  videoId : string;
  currentTime : Z;
  isPlaying : bool;
  skipCounts : gmap string jsval;
  skipUsers : gset string;
  users : list (string * string);
  password : option string;
  boreVotes : gset string;
  recommendQueue : list string
}.

Definition set_videoId (x : string) (r : room) : room :=
  mkRoom (hostId r) x (currentTime r) (isPlaying r) (skipCounts r)
    (skipUsers r) (users r) (password r) (boreVotes r) (recommendQueue r).
Definition set_currentTime (x : Z) (r : room) : room :=
  mkRoom (hostId r) (videoId r) x (isPlaying r) (skipCounts r)
    (skipUsers r) (users r) (password r) (boreVotes r) (recommendQueue r).
Definition set_isPlaying (x : bool) (r : room) : room :=
  mkRoom (hostId r) (videoId r) (currentTime r) x (skipCounts r)
    (skipUsers r) (users r) (password r) (boreVotes r) (recommendQueue r).
Definition set_skipCounts (x : gmap string jsval) (r : room) : room :=
  mkRoom (hostId r) (videoId r) (currentTime r) (isPlaying r) x
    (skipUsers r) (users r) (password r) (boreVotes r) (recommendQueue r).
Definition set_skipUsers (x : gset string) (r : room) : room :=
  mkRoom (hostId r) (videoId r) (currentTime r) (isPlaying r) (skipCounts r)
    x (users r) (password r) (boreVotes r) (recommendQueue r).
Definition set_users (x : list (string * string)) (r : room) : room :=
  mkRoom (hostId r) (videoId r) (currentTime r) (isPlaying r) (skipCounts r)
    (skipUsers r) x (password r) (boreVotes r) (recommendQueue r).
Definition set_boreVotes (x : gset string) (r : room) : room :=
  mkRoom (hostId r) (videoId r) (currentTime r) (isPlaying r) (skipCounts r)
    (skipUsers r) (users r) (password r) x (recommendQueue r).
Definition set_recommendQueue (x : list string) (r : room) : room :=
  mkRoom (hostId r) (videoId r) (currentTime r) (isPlaying r) (skipCounts r)
    (skipUsers r) (users r) (password r) (boreVotes r) x.

(** ** The server state *)

(** A pending [setTimeout] callback of [skip_request]: the closure keeps
    the room object, the room identifier, the voter and the direction. *)
Record timer := mkTimer {
  t_due : Z;                 (* milliseconds *)
  t_room : nat;
  t_roomId : string;
  t_socket : string;
  t_direction : string
}.

Record world := mkWorld {
  heap : list room;                       (* the room objects *)
  rooms : list (string * nat);            (* [rooms]: roomId => room object *)
  groups : gmap string (gset string);     (* broadcast groups of the transport *)
  timers : list timer                     (* pending callbacks, oldest first *)
}.

Definition set_heap (x : list room) (w : world) : world :=
  mkWorld x (rooms w) (groups w) (timers w).
Definition set_rooms (x : list (string * nat)) (w : world) : world :=
  mkWorld (heap w) x (groups w) (timers w).
Definition set_groups (x : gmap string (gset string)) (w : world) : world :=
  mkWorld (heap w) (rooms w) x (timers w).
Definition set_timers (x : list timer) (w : world) : world :=
  mkWorld (heap w) (rooms w) (groups w) x.

Definition empty_world : world := mkWorld [] [] ∅ [].

(** [rooms.get(roomId)], with the object it refers to. *)
Definition get_room (w : world) (roomId : string) : option (nat * room) :=
  match om_get (rooms w) roomId with
  | Some ref =>
      match heap w !! ref with
      | Some r => Some (ref, r)
      | None => None
      end
  | None => None
  end.

(** A write through the reference [ref]. *)
Definition put_room (ref : nat) (r : room) (w : world) : world :=
  set_heap (<[ref := r]> (heap w)) w.

(** The members of the broadcast group of a room identifier. *)
Definition group_of (w : world) (roomId : string) : gset string :=
  default ∅ (groups w !! roomId).

(** [socket.join(roomId)] *)
Definition socket_join (sid roomId : string) (w : world) : world :=
  set_groups (<[roomId := {[sid]} ∪ group_of w roomId]> (groups w)) w.

(** [io.socketsLeave(roomId)] *)
Definition sockets_leave (roomId : string) (w : world) : world :=
  set_groups (delete roomId (groups w)) w.

(** ** Outbound events *)

(** [socket.emit], [io.to(roomId).emit] and [socket.to(roomId).emit]. *)
Inductive target :=
| ToSocket (sid : string)
| ToRoom (roomId : string)
| ToRoomExcept (roomId : string) (sid : string).

(** The members of the groups as they are when the event is emitted. *)
Definition recipients (w : world) (t : target) : gset string :=
  match t with
  | ToSocket sid => {[sid]}
  | ToRoom roomId => group_of w roomId
  | ToRoomExcept roomId sid => group_of w roomId ∖ {[sid]}
  end.

Module out.
Record room_data_payload := mkRoomData {
  rd_videoId : string;
  rd_isHost : bool;
  rd_currentTime : Z;
  rd_isPlaying : bool;
  rd_skipCounts : gmap string jsval;
  rd_usersCount : nat;
  rd_userList : list string;
  rd_isLocked : bool;
  rd_recommendQueue : list string
}.

Inductive message :=
| room_created (roomId : string)
| error (text : string)
| room_data (d : room_data_payload)
| room_info (isLocked : bool)
| user_list_update (userList : list string)
| video_play
| video_pause
| video_seek (time : Z)
| video_changed (videoId : string) (currentTime : Z) (isPlaying : bool)
    (skipCounts : gmap string jsval)
| recommend_queue_updated (queue : list string)
| bore_vote_update (count : nat)
| skip_counts_update (skipCounts : gmap string jsval)
| room_closed.
End out.

Definition emission : Type := target * out.message.
Definition result : Type := world * list emission.

Definition msg_no_room : string := "존재하지 않는 방입니다.".
Definition msg_bad_password : string := "비밀번호가 틀렸습니다.".

(** ** Inbound events *)

Inductive event :=
| create_room (roomId videoId : string) (pw : option string)
| join_room (roomId nickname : string) (pw : option string)
| get_room_info (roomId : string)
| host_current_time_update (roomId : string) (time : Z)
| video_play (roomId : string)
| video_pause (roomId : string)
| video_seek (roomId : string) (time : Z)
| change_video (roomId newVideoId : string)
| add_recommend_video (roomId videoId : string)
| video_ended (roomId : string)
| bore_vote (roomId : string)
| skip_request (roomId direction : string)
| disconnect
| disconnect_button.

(** ** The handlers *)

(** Truthiness of [room.password] (a string or [null]). *)
Definition truthy_pw (p : option string) : bool :=
  match p with
  | Some s => negb (String.eqb s "")
  | None => false
  end.

Definition on_create_room (sid roomId vid : string) (pw : option string)
    (w : world) : result :=
  let r := {| hostId := sid; videoId := vid; currentTime := 0;
              isPlaying := false; skipCounts := zero_counts;
              skipUsers := ∅; users := [];
              password := if truthy_pw pw then pw else None;
              boreVotes := ∅; recommendQueue := [] |} in
  let ref := length (heap w) in
  let w := set_heap (heap w ++ [r]) w in
  let w := set_rooms (om_set (rooms w) roomId ref) w in
  let w := socket_join sid roomId w in
  (w, [(ToSocket sid, out.room_created roomId)]).

Definition on_join_room (sid roomId nickname : string) (pw : option string)
    (w : world) : result :=
  match get_room w roomId with
  | None => (w, [(ToSocket sid, out.error msg_no_room)])
  | Some (ref, r) =>
      if negb (String.eqb sid (hostId r)) && truthy_pw (password r)
         && negb (bool_decide (pw = password r))
      then (w, [(ToSocket sid, out.error msg_bad_password)])
      else
        let w := socket_join sid roomId w in
        let r := set_users (om_set (users r) sid nickname) r in
        let w := put_room ref r w in
        (w, [ (ToSocket sid, out.room_data
                 {| out.rd_videoId := videoId r;
                    out.rd_isHost := String.eqb sid (hostId r);
                    out.rd_currentTime := currentTime r;
                    out.rd_isPlaying := isPlaying r;
                    out.rd_skipCounts := skipCounts r;
                    out.rd_usersCount := om_size (users r);
                    out.rd_userList := om_values (users r);
                    out.rd_isLocked := truthy_pw (password r);
                    out.rd_recommendQueue := recommendQueue r |});
              (ToRoom roomId, out.user_list_update (om_values (users r))) ])
  end.

Definition on_get_room_info (sid roomId : string) (w : world) : result :=
  match get_room w roomId with
  | None => (w, [(ToSocket sid, out.error msg_no_room)])
  | Some (_, r) => (w, [(ToSocket sid, out.room_info (truthy_pw (password r)))])
  end.

Definition on_host_current_time_update (sid roomId : string) (time : Z)
    (w : world) : result :=
  match get_room w roomId with
  | None => (w, [])
  | Some (ref, r) =>
      if negb (String.eqb sid (hostId r)) then (w, [])
      else (put_room ref (set_currentTime time r) w, [])
  end.

Definition on_video_play (sid roomId : string) (w : world) : result :=
  match get_room w roomId with
  | None => (w, [])
  | Some (ref, r) =>
      if negb (String.eqb sid (hostId r)) then (w, [])
      else (put_room ref (set_isPlaying true r) w,
            [(ToRoomExcept roomId sid, out.video_play)])
  end.

Definition on_video_pause (sid roomId : string) (w : world) : result :=
  match get_room w roomId with
  | None => (w, [])
  | Some (ref, r) =>
      if negb (String.eqb sid (hostId r)) then (w, [])
      else (put_room ref (set_isPlaying false r) w,
            [(ToRoomExcept roomId sid, out.video_pause)])
  end.

Definition on_video_seek (sid roomId : string) (time : Z) (w : world)
  : result :=
  match get_room w roomId with
  | None => (w, [])
  | Some (ref, r) =>
      if negb (String.eqb sid (hostId r)) then (w, [])
      else (put_room ref (set_currentTime time r) w,
            [(ToRoomExcept roomId sid, out.video_seek time)])
  end.

Definition on_change_video (sid roomId newVideoId : string) (w : world)
  : result :=
  match get_room w roomId with
  | None => (w, [])
  | Some (ref, r) =>
      if negb (String.eqb sid (hostId r)) then (w, [])
      else
        let r := set_videoId newVideoId r in
        let r := set_currentTime 0 r in
        let r := set_isPlaying true r in
        let r := set_skipCounts zero_counts r in
        let r := set_skipUsers ∅ r in
        (put_room ref r w,
         [(ToRoom roomId,
           out.video_changed newVideoId 0 true (skipCounts r))])
  end.

Definition on_add_recommend_video (sid roomId vid : string) (w : world)
  : result :=
  match get_room w roomId with
  | None => (w, [])
  | Some (ref, r) =>
      let r := set_recommendQueue (recommendQueue r ++ [vid]) r in
      (put_room ref r w,
       [(ToRoom roomId, out.recommend_queue_updated (recommendQueue r))])
  end.

(** The branch shared by [video_ended] and the bore-vote quorum: play the
    front of the recommendation queue, or stop. *)
Definition advance_or_stop (roomId : string) (r : room)
  : room * list emission :=
  match recommendQueue r with
  | nextVideoId :: rest =>
      let r := set_recommendQueue rest r in
      let r := set_videoId nextVideoId r in
      let r := set_currentTime 0 r in
      let r := set_isPlaying true r in
      (r, [ (ToRoom roomId,
             out.video_changed nextVideoId 0 true zero_counts);
            (ToRoom roomId,
             out.recommend_queue_updated (recommendQueue r)) ])
  | [] => (set_isPlaying false r, [])
  end.

Definition on_video_ended (sid roomId : string) (w : world) : result :=
  match get_room w roomId with
  | None => (w, [])
  | Some (ref, r) =>
      if negb (String.eqb sid (hostId r)) then (w, [])
      else
        let '(r, o) := advance_or_stop roomId r in
        let r := set_boreVotes ∅ r in
        (put_room ref r w, o ++ [(ToRoom roomId, out.bore_vote_update 0)])
  end.

Definition on_bore_vote (sid roomId : string) (w : world) : result :=
  match get_room w roomId with
  | None => (w, [])
  | Some (ref, r) =>
      if bool_decide (sid ∈ boreVotes r) then (w, [])
      else
        let r := set_boreVotes ({[sid]} ∪ boreVotes r) r in
        let o1 := [(ToRoom roomId,
                    out.bore_vote_update (size (boreVotes r)))] in
        let totalUsers := om_size (users r) in
        if js_gt_half (size (boreVotes r)) totalUsers then
          let '(r, o2) := advance_or_stop roomId r in
          let r := set_boreVotes ∅ r in
          (put_room ref r w,
           o1 ++ o2 ++ [(ToRoom roomId, out.bore_vote_update 0)])
        else (put_room ref r w, o1)
  end.

(** The delay of the [setTimeout] of [skip_request], in milliseconds. *)
Definition skip_expiry : Z := 2000.

Definition on_skip_request (now : Z) (sid roomId direction : string)
    (w : world) : result :=
  match get_room w roomId with
  | None => (w, [])
  | Some (ref, r) =>
      if bool_decide (sid ∈ skipUsers r) then (w, [])
      else
        let r := set_skipUsers ({[sid]} ∪ skipUsers r) r in
        let r := set_skipCounts
                   (js_set (skipCounts r) direction
                      (js_add1 (js_or_zero (js_get (skipCounts r) direction))))
                   r in
        let roomSize := om_size (users r) in
        let '(r, o) :=
          if js_ge_half (js_get (skipCounts r) direction) roomSize then
            let skipSeconds :=
              (if String.eqb direction "forward" then 10 else -10)%Z in
            let r := set_currentTime
                       (Z.max (currentTime r + skipSeconds) 0) r in
            let r := set_skipCounts zero_counts r in
            let r := set_skipUsers ∅ r in
            (r, [ (ToRoom roomId, out.video_seek (currentTime r));
                  (ToRoom roomId, out.skip_counts_update (skipCounts r)) ])
          else
            (r, [(ToRoom roomId, out.skip_counts_update (skipCounts r))]) in
        let tm := {| t_due := now + skip_expiry; t_room := ref;
                     t_roomId := roomId; t_socket := sid;
                     t_direction := direction |} in
        (set_timers (timers w ++ [tm]) (put_room ref r w), o)
  end.

(** The callback of the [setTimeout]: it runs on the room object it
    captured, with no test of what happened since the vote. *)
Definition on_skip_timeout (tm : timer) (w : world) : result :=
  match heap w !! t_room tm with
  | None => (w, [])
  | Some r =>
      let r := set_skipUsers (skipUsers r ∖ {[t_socket tm]}) r in
      let r := set_skipCounts
                 (js_set (skipCounts r) (t_direction tm)
                    (js_max0 (js_sub1 (js_get (skipCounts r) (t_direction tm)))))
                 r in
      (put_room (t_room tm) r w,
       [(ToRoom (t_roomId tm), out.skip_counts_update (skipCounts r))])
  end.

(** The loop of the disconnect handlers: the first room, in the order of
    the registry, that has the connection among its users. *)
Fixpoint find_user_room (hp : list room) (entries : list (string * nat))
    (sid : string) : option (string * nat * room) :=
  match entries with
  | [] => None
  | (roomId, ref) :: rest =>
      match hp !! ref with
      | Some r =>
          if om_has (users r) sid then Some (roomId, ref, r)
          else find_user_room hp rest sid
      | None => find_user_room hp rest sid
      end
  end.

(** The body of both [disconnect] and [disconnect_button]. *)
Definition on_disconnect (sid : string) (w : world) : result :=
  match find_user_room (heap w) (rooms w) sid with
  | None => (w, [])
  | Some (roomId, ref, r) =>
      let r := set_users (om_delete (users r) sid) r in
      let w := put_room ref r w in
      if String.eqb (hostId r) sid then
        let w := set_rooms (om_delete (rooms w) roomId) w in
        let o := [(ToRoom roomId, out.room_closed)] in
        let w := sockets_leave roomId w in
        (w, o)
      else
        (w, [(ToRoom roomId, out.user_list_update (om_values (users r)))])
  end.

(** The dispatch of an inbound event of connection [sid] at time [now]. *)
Definition handle (now : Z) (sid : string) (e : event) (w : world)
  : result :=
  match e with
  | create_room roomId vid pw => on_create_room sid roomId vid pw w
  | join_room roomId nickname pw => on_join_room sid roomId nickname pw w
  | get_room_info roomId => on_get_room_info sid roomId w
  | host_current_time_update roomId t =>
      on_host_current_time_update sid roomId t w
  | video_play roomId => on_video_play sid roomId w
  | video_pause roomId => on_video_pause sid roomId w
  | video_seek roomId t => on_video_seek sid roomId t w
  | change_video roomId newVideoId => on_change_video sid roomId newVideoId w
  | add_recommend_video roomId vid => on_add_recommend_video sid roomId vid w
  | video_ended roomId => on_video_ended sid roomId w
  | bore_vote roomId => on_bore_vote sid roomId w
  | skip_request roomId direction =>
      on_skip_request now sid roomId direction w
  | disconnect => on_disconnect sid w
  | disconnect_button => on_disconnect sid w
  end.

(** ** The event loop *)

(** One turn of the loop: an inbound event is dispatched, or the oldest
    pending callback runs once it is due. *)
Inductive action :=
| Recv (sid : string) (e : event)
| Fire.

Definition step (now : Z) (a : action) (w : world) : result :=
  match a with
  | Recv sid e => handle now sid e w
  | Fire =>
      match timers w with
      | tm :: rest =>
          if (t_due tm <=? now)%Z then on_skip_timeout tm (set_timers rest w)
          else (w, [])
      | [] => (w, [])
      end
  end.

(** A run of timestamped turns, with everything emitted on the way. *)
Fixpoint run (tr : list (Z * action)) (w : world) : result :=
  match tr with
  | [] => (w, [])
  | (now, a) :: tr' =>
      let '(w1, o1) := step now a w in
      let '(w2, o2) := run tr' w1 in
      (w2, o1 ++ o2)
  end.

(** The room a room identifier refers to. *)
Definition room_of (w : world) (roomId : string) : option room :=
  snd <$> get_room w roomId.


(** ** Vocabulary of the properties *)

(** No room object has a negative playback offset. *)
Definition time_nonneg (w : world) : Prop :=
  Forall (fun r => (0 <= currentTime r)%Z) (heap w).

(** The time a turn carries is not negative, when the turn is a
    [video_seek] or a [host_current_time_update] that the host of an
    existing room sends. *)
Definition host_time_ok (a : action) (w : world) : Prop :=
  match a with
  | Recv sid (video_seek roomId t)
  | Recv sid (host_current_time_update roomId t) =>
      forall ref r, get_room w roomId = Some (ref, r) -> hostId r = sid ->
                    (0 <= t)%Z
  | _ => True
  end.

(** [host_time_ok] at every turn of a run. *)
Fixpoint host_times_ok (tr : list (Z * action)) (w : world) : Prop :=
  match tr with
  | [] => True
  | (now, a) :: tr' => host_time_ok a w /\ host_times_ok tr' (fst (step now a w))
  end.

(** The turn creates a room under the identifier [roomId]. *)
Definition creates (roomId : string) (a : action) : bool :=
  match a with
  | Recv _ (create_room roomId' _ _) => String.eqb roomId' roomId
  | _ => false
  end.

(** No turn of the run creates a room under [roomId]. *)
Definition never_created (roomId : string) (tr : list (Z * action)) : Prop :=
  Forall (fun x => creates roomId (snd x) = false) tr.

(** The tallies of the two directions are numbers that are not negative,
    in a tally object and in every room object. *)
Definition numeric_counts (obj : gmap string jsval) : Prop :=
  (exists n, obj !! "forward" = Some (VNum n) /\ (0 <= n)%Z) /\
  (exists n, obj !! "backward" = Some (VNum n) /\ (0 <= n)%Z).

Definition counts_numeric (w : world) : Prop :=
  Forall (fun r => numeric_counts (skipCounts r)) (heap w).

(** The room a skip vote leaves when it reaches its quorum, and the room
    it leaves when it is only counted as the [m]-th vote of [direction]. *)
Definition skipped_room (direction : string) (r : room) : room :=
  mkRoom (hostId r) (videoId r)
    (Z.max (currentTime r + (if String.eqb direction "forward" then 10 else -10)) 0)
    (isPlaying r) zero_counts ∅ (users r) (password r) (boreVotes r)
    (recommendQueue r).

Definition counted_room (sid direction : string) (m : Z) (r : room) : room :=
  mkRoom (hostId r) (videoId r) (currentTime r) (isPlaying r)
    (<[direction := VNum m]> (skipCounts r)) ({[sid]} ∪ skipUsers r)
    (users r) (password r) (boreVotes r) (recommendQueue r).

(** The room after the front of the recommendation queue has replaced
    the video, and the room after playback has stopped on an empty queue;
    both with the bore votes cleared. *)
Definition advanced_room (next : string) (rest : list string) (r : room) : room :=
  mkRoom (hostId r) next 0 true (skipCounts r) (skipUsers r) (users r)
    (password r) ∅ rest.

Definition stopped_room (r : room) : room :=
  mkRoom (hostId r) (videoId r) (currentTime r) false (skipCounts r)
    (skipUsers r) (users r) (password r) ∅ (recommendQueue r).

(** ** Scenarios *)

(** The room object of a room identifier, for a registered identifier. *)
Definition room_at (w : world) (roomId : string) : room :=
  default (mkRoom "" "" 0 false ∅ ∅ [] None ∅ []) (room_of w roomId).

(** A room "r" created by "h", not joined by anyone yet. *)
Definition created_world : world :=
  Eval vm_compute in
    fst (run [(0%Z, Recv "h" (create_room "r" "v0" None))] empty_world).

(** The room "r" with its host "h" and the participants "a", "b", "c". *)
Definition joined_world : world :=
  Eval vm_compute in
    fst (run [ (10%Z, Recv "h" (join_room "r" "host" None));
               (20%Z, Recv "a" (join_room "r" "ann" None));
               (30%Z, Recv "b" (join_room "r" "bob" None));
               (40%Z, Recv "c" (join_room "r" "cat" None)) ] created_world).

Definition joined_room : room := Eval vm_compute in room_at joined_world "r".

(** A run with a host seek to second 3 and a backward skip that reaches
    its quorum (two votes for four participants) right after. *)
Definition seek_then_skip_back : list (Z * action) :=
  [ (100%Z, Recv "h" (video_seek "r" 3));
    (200%Z, Recv "a" (skip_request "r" "backward"));
    (300%Z, Recv "b" (skip_request "r" "backward"));
    (2200%Z, Fire) ].

(** "a" has voted backward, and "a" has voted forward: one vote of the
    two that four participants need. *)
Definition back_voted_world : world :=
  Eval vm_compute in fst (on_skip_request 200 "a" "r" "backward" joined_world).

Definition back_voted_room : room :=
  Eval vm_compute in room_at back_voted_world "r".

Definition forward_voted_world : world :=
  Eval vm_compute in fst (on_skip_request 200 "a" "r" "forward" joined_world).

Definition forward_voted_room : room :=
  Eval vm_compute in room_at forward_voted_world "r".

(** One, then two of the four participants of "r" have voted "boring". *)
Definition bored_once_world : world :=
  Eval vm_compute in fst (on_bore_vote "a" "r" joined_world).

Definition bored_once_room : room :=
  Eval vm_compute in room_at bored_once_world "r".

Definition bored_world : world :=
  Eval vm_compute in
    fst (run [ (100%Z, Recv "a" (bore_vote "r"));
               (110%Z, Recv "b" (bore_vote "r")) ] joined_world).

(** "a" and "b" vote forward and reach the quorum (two of four), then "c"
    votes forward in the new epoch, half a second later. *)
Definition revoted_world : world :=
  Eval vm_compute in
    fst (run [ (1000%Z, Recv "a" (skip_request "r" "forward"));
               (1100%Z, Recv "b" (skip_request "r" "forward"));
               (1500%Z, Recv "c" (skip_request "r" "forward")) ] joined_world).

(** A host that is a guest of an older room: "g" opens "old", "h" joins
    it, then opens and joins "new", then disconnects. *)
Definition two_rooms_run : list (Z * action) :=
  [ (0%Z, Recv "g" (create_room "old" "v" None));
    (10%Z, Recv "h" (join_room "old" "guest" None));
    (20%Z, Recv "h" (create_room "new" "v" None));
    (30%Z, Recv "h" (join_room "new" "host" None));
    (40%Z, Recv "h" disconnect) ].


(** ** The room directory and the chat *)

(** These two handlers only read the rooms and answer; they are no turns
    of [step]. *)

(** [arr.slice(start, end)] on integral bounds: a negative bound counts
    from the end, both are clamped to the length. *)
Definition js_slice {A : Type} (l : list A) (start stop : Z) : list A :=
  let len := Z.of_nat (length l) in
  let k := if (start <? 0)%Z then Z.max (len + start) 0 else Z.min start len in
  let final := if (stop <? 0)%Z then Z.max (len + stop) 0 else Z.min stop len in
  take (Z.to_nat (final - k)) (drop (Z.to_nat k) l).

(** The room object behind a reference of the registry. *)
Definition deref (hp : list room) (ref : nat) : room :=
  default (mkRoom "" "" 0 false ∅ ∅ [] None ∅ []) (hp !! ref).

(** [m.get(k) || fallback] for a map of strings. *)
Definition get_or (m : list (string * string)) (k fallback : string) : string :=
  match om_get m k with
  | Some s => if String.eqb s "" then fallback else s
  | None => fallback
  end.

Module dir.
Record entry := mkEntry {
  roomId : string;
  displayName : string;
  isLocked : bool
}.

Inductive reply :=
| room_list (rooms : list entry) (hasNextPage : bool)
| chat_message (nickname : string) (message : list N).
End dir.

Definition msg_unknown_host : string := "알 수 없음".
Definition msg_anonymous : string := "익명".

Definition pageSize : Z := 10.

(** The entry of the list for one pair of the registry. *)
Definition list_entry (hp : list room) (e : string * nat) : dir.entry :=
  let r := deref hp (snd e) in
  let hostNickname := get_or (users r) (hostId r) msg_unknown_host in
  {| dir.roomId := fst e;
     dir.displayName := hostNickname ++ " : " ++ fst e;
     dir.isLocked := truthy_pw (password r) |}.

(** [get_room_list]; a missing [page] is page 1. *)
Definition on_get_room_list (sid : string) (page : option Z) (w : world)
  : target * dir.reply :=
  let page := default 1%Z page in
  let roomEntries := reverse (rooms w) in
  let paginated :=
    js_slice roomEntries ((page - 1) * pageSize) (page * pageSize) in
  let roomList := map (list_entry (heap w)) paginated in
  (ToSocket sid,
   dir.room_list roomList (page * pageSize <? Z.of_nat (om_size (rooms w)))%Z).

(** A chat text is its sequence of UTF-16 code units; the mark appended
    to a cut text is the single unit U+2026. *)
Definition ellipsis : list N := [8230%N].

Definition truncate_message (message : list N) : list N :=
  if (10 <? length message)%nat then take 10 message ++ ellipsis else message.

(** [chat_message]: nothing for an unknown room, else one event for the
    whole room. *)
Definition on_chat_message (sid roomId : string) (message : list N)
    (w : world) : list (target * dir.reply) :=
  match get_room w roomId with
  | None => []
  | Some (_, r) =>
      let nickname := get_or (users r) sid msg_anonymous in
      [(ToRoom roomId, dir.chat_message nickname (truncate_message message))]
  end.

(** ** Further vocabulary *)

(** The registry and the pending callbacks only refer to room objects of
    the store, and the keys of the registry and of every participants map
    are distinct. *)
Definition refs_valid (w : world) : Prop :=
  Forall (fun e => snd e < length (heap w)) (rooms w) /\
  Forall (fun tm => t_room tm < length (heap w)) (timers w).

Definition keys_distinct (w : world) : Prop :=
  NoDup (map fst (rooms w)) /\
  Forall (fun r => NoDup (map fst (users r))) (heap w).

(** Every room object of [w] is still in [w'], under the same reference,
    with the same host and the same password. *)
Definition owners_kept (w w' : world) : Prop :=
  forall i r, heap w !! i = Some r ->
    exists r', heap w' !! i = Some r' /\
               hostId r' = hostId r /\ password r' = password r.

(** The connections enqueue the videos [vids], one after the other. *)
Definition enqueue_all (sid roomId : string) (vids : list string) (w : world)
  : world :=
  fold_left (fun w vid => fst (on_add_recommend_video sid roomId vid w)) vids w.

(** The host reports the end of the video [k] times in a row. *)
Definition end_videos (sid roomId : string) (k : nat) (w : world) : world :=
  Nat.iter k (fun w => fst (on_video_ended sid roomId w)) w.

(** The first [k] pages of the room list, one after the other. *)
Definition first_pages (sid : string) (k : nat) (w : world) : list dir.entry :=
  flat_map (fun p =>
              match snd (on_get_room_list sid (Some (Z.of_nat (S p))) w) with
              | dir.room_list l _ => l
              | _ => []
              end) (seq 0 k).

(** ** Further scenarios *)

(** A room "L" that "h" created with the password "x". *)
Definition locked_world : world :=
  Eval vm_compute in
    fst (on_create_room "h" "L" "v0" (Some "x") empty_world).

Definition locked_room : room := Eval vm_compute in room_at locked_world "L".

(** "a" votes forward in the room "r", then "z" creates a room under the
    same identifier "r" while the callback of the vote is pending. *)
Definition replaced_world : world :=
  Eval vm_compute in
    fst (run [ (200%Z, Recv "a" (skip_request "r" "forward"));
               (300%Z, Recv "z" (create_room "r" "v9" None)) ] joined_world).

Definition replaced_room : room := Eval vm_compute in room_at replaced_world "r".

Definition pending_vote : timer :=
  Eval vm_compute in
    default (mkTimer 0 0 "" "" "") (head (timers replaced_world)).

(** The room "r" with three videos recommended, by "a", "b" and "a". *)
Definition queued_world : world :=
  Eval vm_compute in
    fst (run [ (100%Z, Recv "a" (add_recommend_video "r" "v1"));
               (110%Z, Recv "b" (add_recommend_video "r" "v2"));
               (120%Z, Recv "a" (add_recommend_video "r" "v3")) ] joined_world).

Definition queued_room : room := Eval vm_compute in room_at queued_world "r".

(** ** The shape of a turn *)

(** What a turn may do to a room object: the host and the password stay,
    the participants map is kept, gets one [set] or gets one [delete]. *)
Definition room_step (r r' : room) : Prop :=
  hostId r' = hostId r /\ password r' = password r /\
  (users r' = users r \/
   (exists k v, users r' = om_set (users r) k v) \/
   (exists k, users r' = om_delete (users r) k)).

(** What a turn may do to the server: a create_room allocates one room
    object without participants and registers it; any other turn writes
    to at most one room object, deletes at most one entry of the registry,
    and schedules or consumes at most one callback. *)
Definition step_shape (w w' : world) : Prop :=
  (exists roomId r0,
     users r0 = [] /\ heap w' = heap w ++ [r0] /\
     rooms w' = om_set (rooms w) roomId (length (heap w)) /\
     timers w' = timers w)
  \/
  ((heap w' = heap w \/
    exists i r r', heap w !! i = Some r /\ room_step r r' /\
                   heap w' = <[i := r']> (heap w)) /\
   (rooms w' = rooms w \/ exists k, rooms w' = om_delete (rooms w) k) /\
   (timers w' = timers w \/
    (exists tm, timers w' = timers w ++ [tm] /\ is_Some (heap w !! t_room tm)) \/
    (exists tm, timers w = tm :: timers w'))).

(** Twenty-five rooms "A" .. "Y", created one after the other by "h". *)
Definition many_rooms_world : world :=
  Eval vm_compute in
    fold_left
      (fun w i =>
         fst (on_create_room "h" (String (Ascii.ascii_of_nat (65 + i)) "")
                "v" None w))
      (seq 0 25) empty_world.

(** The room "r" with three videos in its queue, after the bore votes of
    "a" and "b": the vote of "c" will be the third of four participants. *)
Definition queued_bored_world : world :=
  Eval vm_compute in
    fst (run [ (130%Z, Recv "a" (bore_vote "r"));
               (140%Z, Recv "b" (bore_vote "r")) ] queued_world).

Definition queued_bored_room : room :=
  Eval vm_compute in room_at queued_bored_world "r".
(** ** Basic facts on the store and the registry *)

Lemma get_room_Some w roomId ref r :
  get_room w roomId = Some (ref, r) ->
  om_get (rooms w) roomId = Some ref /\ heap w !! ref = Some r.
Proof.
  unfold get_room. destruct (om_get (rooms w) roomId) as [ref'|]; [|done].
  destruct (heap w !! ref') as [r'|] eqn:Hh; [|done].
  intros [= <- <-]. done.
Qed.

Lemma get_room_put w roomId ref r r' :
  get_room w roomId = Some (ref, r) ->
  get_room (put_room ref r' w) roomId = Some (ref, r').
Proof.
  intros [Hreg Hheap]%get_room_Some. unfold get_room, put_room. simpl.
  rewrite Hreg. rewrite list_lookup_insert_eq; [done|].
  by eapply lookup_lt_Some.
Qed.

Lemma get_room_set_timers w roomId x :
  get_room (set_timers x w) roomId = get_room w roomId.
Proof. done. Qed.

Lemma room_of_put w roomId ref r r' x :
  get_room w roomId = Some (ref, r) ->
  room_of (set_timers x (put_room ref r' w)) roomId = Some r'.
Proof.
  intros H. unfold room_of. rewrite get_room_set_timers.
  by rewrite (get_room_put _ _ _ _ r' H).
Qed.

Lemma eqb_host_false sid r :
  sid <> hostId r -> negb (String.eqb sid (hostId r)) = true.
Proof. intros H. by apply negb_true_iff, String.eqb_neq. Qed.

(** ** Host-only commands *)

(** C2. A host-only command (video_play, video_pause, video_seek,
    change_video, host_current_time_update, video_ended) issued for an
    existing room by a connection that is not its host returns the world
    unchanged (rooms, registry, groups and pending callbacks) and emits
    nothing. *)
Theorem C2_non_host_dropped (now : Z) (sid roomId : string) (w : world)
    (ref : nat) (r : room) :
  get_room w roomId = Some (ref, r) ->
  sid <> hostId r ->
  handle now sid (video_play roomId) w = (w, []) /\
  handle now sid (video_pause roomId) w = (w, []) /\
  (forall t, handle now sid (video_seek roomId t) w = (w, [])) /\
  (forall v, handle now sid (change_video roomId v) w = (w, [])) /\
  (forall t, handle now sid (host_current_time_update roomId t) w = (w, [])) /\
  handle now sid (video_ended roomId) w = (w, []).
Proof.
  intros Hroom Hne. apply eqb_host_false in Hne. simpl.
  unfold on_video_play, on_video_pause, on_video_seek, on_change_video,
    on_host_current_time_update, on_video_ended.
  rewrite Hroom, Hne. repeat split.
Qed.

Lemma C2_non_host_dropped_witness :
  handle 50 "a" (video_seek "r" 7) joined_world = (joined_world, []) /\
  handle 50 "a" (video_ended "r") joined_world = (joined_world, []).
Proof.
  destruct (C2_non_host_dropped 50 "a" "r" joined_world 0 joined_room)
    as (_ & _ & Hs & _ & _ & He).
  - by vm_compute.
  - by vm_compute.
  - split; [apply Hs | apply He].
Defined.

(** ** The playback offset *)

Lemma time_nonneg_put w ref r :
  time_nonneg w -> (0 <= currentTime r)%Z -> time_nonneg (put_room ref r w).
Proof. intros Hw Hr. unfold time_nonneg, put_room. simpl. by apply Forall_insert. Qed.

Lemma time_nonneg_get w roomId ref r :
  time_nonneg w -> get_room w roomId = Some (ref, r) -> (0 <= currentTime r)%Z.
Proof.
  intros Hw [_ Hh]%get_room_Some.
  by apply (Forall_lookup_1 _ _ _ _ Hw Hh).
Qed.

Lemma advance_or_stop_time roomId r :
  (0 <= currentTime r)%Z -> (0 <= currentTime (fst (advance_or_stop roomId r)))%Z.
Proof. unfold advance_or_stop. destruct (recommendQueue r); simpl; lia. Qed.

Lemma on_disconnect_time sid w :
  time_nonneg w -> time_nonneg (fst (on_disconnect sid w)).
Proof.
  intros Hw. unfold on_disconnect.
  destruct (find_user_room (heap w) (rooms w) sid) as [[[roomId ref] r]|] eqn:Hf;
    [|done].
  assert (Hr : heap w !! ref = Some r).
  { clear Hw. revert Hf. generalize (rooms w). intros m. induction m as [|[k i] m IH]; simpl; [done|].
    destruct (heap w !! i) as [r'|] eqn:Hi; [|done].
    destruct (om_has (users r') sid); [|done].
    by intros [= -> -> ->]. }
  assert (Hp : time_nonneg (put_room ref (set_users (om_delete (users r) sid) r) w)).
  { apply time_nonneg_put; [done|]. simpl. by apply (Forall_lookup_1 _ _ _ _ Hw Hr). }
  simpl. by destruct (String.eqb (hostId r) sid).
Qed.

Lemma handle_time now sid e w :
  host_time_ok (Recv sid e) w -> time_nonneg w ->
  time_nonneg (fst (handle now sid e w)).
Proof.
  intros Hok Hw.
  destruct e; simpl in *;
    try (by apply on_disconnect_time);
    [ unfold on_create_room | unfold on_join_room | unfold on_get_room_info
    | unfold on_host_current_time_update | unfold on_video_play
    | unfold on_video_pause | unfold on_video_seek | unfold on_change_video
    | unfold on_add_recommend_video | unfold on_video_ended
    | unfold on_bore_vote | unfold on_skip_request ].
  - unfold time_nonneg. simpl. apply Forall_app. split; [done|].
    by apply Forall_singleton.
  - destruct (get_room w roomId) as [[ref r]|] eqn:Hg; [|done].
    destruct (_ && _); [done|]. simpl.
    apply time_nonneg_put; [done|]. simpl. by eapply time_nonneg_get.
  - by destruct (get_room w roomId) as [[ref r]|].
  - destruct (get_room w roomId) as [[ref r]|] eqn:Hg; [|done].
    destruct (String.eqb sid (hostId r)) eqn:He; [|done]. simpl.
    apply time_nonneg_put; [done|]. simpl.
    apply (Hok ref r eq_refl). symmetry. by apply String.eqb_eq.
  - destruct (get_room w roomId) as [[ref r]|] eqn:Hg; [|done].
    destruct (negb _); [done|]. simpl.
    apply time_nonneg_put; [done|]. simpl. by eapply time_nonneg_get.
  - destruct (get_room w roomId) as [[ref r]|] eqn:Hg; [|done].
    destruct (negb _); [done|]. simpl.
    apply time_nonneg_put; [done|]. simpl. by eapply time_nonneg_get.
  - destruct (get_room w roomId) as [[ref r]|] eqn:Hg; [|done].
    destruct (String.eqb sid (hostId r)) eqn:He; [|done]. simpl.
    apply time_nonneg_put; [done|]. simpl.
    apply (Hok ref r eq_refl). symmetry. by apply String.eqb_eq.
  - destruct (get_room w roomId) as [[ref r]|] eqn:Hg; [|done].
    destruct (negb _); [done|]. simpl.
    by apply time_nonneg_put.
  - destruct (get_room w roomId) as [[ref r]|] eqn:Hg; [|done]. simpl.
    apply time_nonneg_put; [done|]. simpl. by eapply time_nonneg_get.
  - destruct (get_room w roomId) as [[ref r]|] eqn:Hg; [|done].
    destruct (negb _); [done|].
    pose proof (advance_or_stop_time roomId r (time_nonneg_get _ _ _ _ Hw Hg)) as Ha.
    destruct (advance_or_stop roomId r) as [r' o]. simpl in *.
    by apply time_nonneg_put.
  - destruct (get_room w roomId) as [[ref r]|] eqn:Hg; [|done].
    destruct (bool_decide _); [done|]. simpl.
    pose proof (time_nonneg_get _ _ _ _ Hw Hg) as Hr.
    destruct (js_gt_half _ _).
    + pose proof (advance_or_stop_time roomId
        (set_boreVotes ({[sid]} ∪ boreVotes r) r) Hr) as Ha.
      destruct (advance_or_stop roomId _) as [r' o]. simpl in *.
      by apply time_nonneg_put.
    + by apply time_nonneg_put.
  - destruct (get_room w roomId) as [[ref r]|] eqn:Hg; [|done].
    destruct (bool_decide _); [done|]. simpl.
    pose proof (time_nonneg_get _ _ _ _ Hw Hg) as Hr.
    destruct (js_ge_half _ _); simpl.
    + apply (time_nonneg_put w ref); [done|]. simpl. lia.
    + by apply (time_nonneg_put w ref).
Qed.

Lemma on_skip_timeout_time tm w :
  time_nonneg w -> time_nonneg (fst (on_skip_timeout tm w)).
Proof.
  intros Hw. unfold on_skip_timeout.
  destruct (heap w !! t_room tm) as [r|] eqn:Hh; [|done]. simpl.
  apply time_nonneg_put; [done|]. simpl.
  by apply (Forall_lookup_1 _ _ _ _ Hw Hh).
Qed.

Lemma step_time now a w :
  host_time_ok a w -> time_nonneg w -> time_nonneg (fst (step now a w)).
Proof.
  intros Hok Hw. destruct a as [sid e|]; simpl.
  - by apply handle_time.
  - destruct (timers w) as [|tm rest]; [done|].
    destruct (t_due tm <=? now)%Z; [|done].
    by apply on_skip_timeout_time.
Qed.

Lemma run_cons now a tr w :
  fst (run ((now, a) :: tr) w) = fst (run tr (fst (step now a w))).
Proof.
  simpl. destruct (step now a w) as [w1 o1]. simpl.
  by destruct (run tr w1).
Qed.

(** C1, amended. Along every run of inbound events and expiring
    callbacks that starts with no negative playback offset, no room has a
    negative [currentTime] after any turn, provided each [video_seek] and
    [host_current_time_update] that a room's host sends carries a time
    that is not negative: the skip quorum floors at 0, the video changes
    reset to 0, and the two host commands store the time they carry as it
    is. *)
Theorem C1_currentTime_nonneg (tr : list (Z * action)) (w : world) (k : nat) :
  time_nonneg w ->
  host_times_ok tr w ->
  time_nonneg (fst (run (take k tr) w)).
Proof.
  revert w k. induction tr as [|[now a] tr IH]; intros w k Hw Hok.
  - by rewrite take_nil.
  - destruct k as [|k]; [done|].
    destruct Hok as [Ha Hok].
    change (take (S k) ((now, a) :: tr)) with ((now, a) :: take k tr).
    rewrite run_cons. apply IH; [|done]. by apply step_time.
Qed.

Lemma C1_currentTime_nonneg_witness :
  time_nonneg (fst (run (take 3 seek_then_skip_back) joined_world)).
Proof.
  apply C1_currentTime_nonneg.
  - apply Forall_lookup. intros [|[|i]] r; vm_compute; [|discriminate..].
    intros [= <-]. discriminate.
  - simpl. repeat split. intros ref r _ _. lia.
Defined.

(** C1 as stated fails: the host of a fresh room seeks to second -5 and
    the room keeps -5 as its playback offset. *)
Lemma C1_negative_seek_counterexample :
  time_nonneg created_world /\
  currentTime <$> room_of (fst (handle 50 "h" (video_seek "r" (-5)) created_world)) "r"
    = Some (-5)%Z /\
  currentTime <$> room_of
      (fst (handle 50 "h" (host_current_time_update "r" (-5)) created_world)) "r"
    = Some (-5)%Z /\
  ~ time_nonneg (fst (handle 50 "h" (video_seek "r" (-5)) created_world)).
Proof.
  split; [repeat constructor; by vm_compute|].
  split; [by vm_compute|]. split; [by vm_compute|].
  intros H. apply Forall_inv in H. by vm_compute in H.
Qed.

(** ** The skip vote *)

Lemma js_increment_num (n : Z) : js_add1 (js_or_zero (VNum n)) = VNum (n + 1).
Proof.
  simpl. destruct (Z.eqb_spec n 0) as [->|]; reflexivity.
Qed.

Lemma js_get_own obj k v : obj !! k = Some v -> js_get obj k = v.
Proof. unfold js_get. by intros ->. Qed.

(** An accepted vote whose incremented tally is the number [m]. *)
Lemma on_skip_request_counted now sid roomId d w ref r m :
  get_room w roomId = Some (ref, r) ->
  sid ∉ skipUsers r ->
  String.eqb d "__proto__" = false ->
  js_add1 (js_or_zero (js_get (skipCounts r) d)) = VNum m ->
  on_skip_request now sid roomId d w =
    let tm := mkTimer (now + skip_expiry) ref roomId sid d in
    if (Z.of_nat (length (users r)) <=? 2 * m)%Z then
      (set_timers (timers w ++ [tm]) (put_room ref (skipped_room d r) w),
       [ (ToRoom roomId, out.video_seek (currentTime (skipped_room d r)));
         (ToRoom roomId, out.skip_counts_update zero_counts) ])
    else
      (set_timers (timers w ++ [tm]) (put_room ref (counted_room sid d m r) w),
       [ (ToRoom roomId,
          out.skip_counts_update (<[d := VNum m]> (skipCounts r))) ]).
Proof.
  intros Hg Hs Hp Hm. unfold on_skip_request. rewrite Hg.
  rewrite bool_decide_eq_false_2 by done. simpl.
  unfold js_set. rewrite Hp, Hm.
  rewrite (js_get_own _ d (VNum m)) by apply lookup_insert_eq.
  unfold om_size. simpl.
  by destruct (Z.of_nat (length (users r)) <=? 2 * m)%Z.
Qed.

Lemma direction_not_proto d :
  d = "forward" \/ d = "backward" -> String.eqb d "__proto__" = false.
Proof. by intros [-> | ->]. Qed.

(** C3. An accepted skip vote for forward or backward, cast when the
    tally of that direction is [n], reaches the quorum exactly when
    [n + 1 >= participantCount / 2]. Then [currentTime] becomes
    [max (currentTime + delta) 0] with [delta] 10 for forward and -10 for
    backward, the tallies are [{forward: 0, backward: 0}], the voter set is
    empty, and the room is sent the new [currentTime] as a [video_seek]
    followed by the reset tallies. Below the quorum the vote is only
    counted: the voter set is not empty and the playback offset is kept. *)
Theorem C3_skip_quorum (now : Z) (sid roomId d : string) (w : world)
    (ref : nat) (r : room) (n delta : Z) :
  get_room w roomId = Some (ref, r) ->
  sid ∉ skipUsers r ->
  (d = "forward" /\ delta = 10%Z) \/ (d = "backward" /\ delta = (-10)%Z) ->
  skipCounts r !! d = Some (VNum n) ->
  exists r',
    room_of (fst (on_skip_request now sid roomId d w)) roomId = Some r' /\
    if (Z.of_nat (length (users r)) <=? 2 * (n + 1))%Z then
      currentTime r' = Z.max (currentTime r + delta) 0 /\
      skipCounts r' = zero_counts /\
      skipCounts r' !! "forward" = Some (VNum 0) /\
      skipCounts r' !! "backward" = Some (VNum 0) /\
      skipUsers r' = ∅ /\
      snd (on_skip_request now sid roomId d w) =
        [ (ToRoom roomId, out.video_seek (currentTime r'));
          (ToRoom roomId, out.skip_counts_update zero_counts) ]
    else
      currentTime r' = currentTime r /\
      skipCounts r' !! d = Some (VNum (n + 1)) /\
      sid ∈ skipUsers r' /\
      snd (on_skip_request now sid roomId d w) =
        [ (ToRoom roomId, out.skip_counts_update (skipCounts r')) ].
Proof.
  intros Hg Hs Hd Hn.
  assert (Hp : String.eqb d "__proto__" = false)
    by (apply direction_not_proto; tauto).
  assert (Hm : js_add1 (js_or_zero (js_get (skipCounts r) d)) = VNum (n + 1))
    by (rewrite (js_get_own _ _ _ Hn); apply js_increment_num).
  rewrite (on_skip_request_counted now sid roomId d w ref r (n + 1) Hg Hs Hp Hm).
  simpl. destruct (Z.of_nat (length (users r)) <=? 2 * (n + 1))%Z; simpl.
  - exists (skipped_room d r). split; [by eapply room_of_put|].
    simpl. repeat split; try done.
    destruct Hd as [[Hd Hdelta] | [Hd Hdelta]]; by rewrite Hd, Hdelta.
  - exists (counted_room sid d (n + 1) r). split; [by eapply room_of_put|].
    simpl. repeat split; try done.
    + apply lookup_insert_eq.
    + by apply elem_of_union_l, elem_of_singleton.
Qed.

Lemma C3_skip_quorum_witness :
  exists r',
    room_of (fst (on_skip_request 300 "b" "r" "backward" back_voted_world)) "r"
      = Some r' /\
    currentTime r' = 0%Z /\ skipUsers r' = ∅.
Proof.
  destruct (C3_skip_quorum 300 "b" "r" "backward" back_voted_world 0
              back_voted_room 1 (-10)) as (r' & Hr & Hq).
  - by vm_compute.
  - by vm_compute.
  - by right.
  - by vm_compute.
  - exists r'. split; [exact Hr|].
    change (Z.of_nat (length (users back_voted_room)) <=? 2 * (1 + 1))%Z
      with true in Hq.
    destruct Hq as (Ht & _ & _ & _ & Hu & _). split; [|exact Hu].
    rewrite Ht. by vm_compute.
Defined.

(** ** The bore vote *)

Lemma size_add_voter (sid : string) (s : gset string) :
  sid ∉ s -> size ({[sid]} ∪ s) = S (size s).
Proof.
  intros H. rewrite size_union by set_solver. by rewrite size_singleton.
Qed.

(** An accepted bore vote, as the rooms and events it produces. *)
Lemma on_bore_vote_accepted sid roomId w ref r :
  get_room w roomId = Some (ref, r) ->
  sid ∉ boreVotes r ->
  on_bore_vote sid roomId w =
    let count := S (size (boreVotes r)) in
    if (length (users r) <? 2 * count)%nat then
      match recommendQueue r with
      | next :: rest =>
          (put_room ref (advanced_room next rest r) w,
           [ (ToRoom roomId, out.bore_vote_update count);
             (ToRoom roomId, out.video_changed next 0 true zero_counts);
             (ToRoom roomId, out.recommend_queue_updated rest);
             (ToRoom roomId, out.bore_vote_update 0) ])
      | [] =>
          (put_room ref (stopped_room r) w,
           [ (ToRoom roomId, out.bore_vote_update count);
             (ToRoom roomId, out.bore_vote_update 0) ])
      end
    else
      (put_room ref (set_boreVotes ({[sid]} ∪ boreVotes r) r) w,
       [ (ToRoom roomId, out.bore_vote_update count) ]).
Proof.
  intros Hg Hs. cbv zeta.
  remember (length (users r) <? 2 * S (size (boreVotes r)))%nat as q eqn:Hq.
  unfold on_bore_vote. rewrite Hg.
  rewrite bool_decide_eq_false_2 by done.
  cbv beta iota zeta.
  replace (size (boreVotes (set_boreVotes ({[sid]} ∪ boreVotes r) r)))
    with (S (size (boreVotes r))) by (symmetry; by apply size_add_voter).
  unfold js_gt_half, om_size.
  replace (users (set_boreVotes ({[sid]} ∪ boreVotes r) r)) with (users r)
    by reflexivity.
  rewrite <- Hq. clear Hq. destruct q; [|done].
  unfold advance_or_stop.
  replace (recommendQueue (set_boreVotes ({[sid]} ∪ boreVotes r) r))
    with (recommendQueue r) by reflexivity.
  by destruct (recommendQueue r) as [|next rest].
Qed.

(** C4. An accepted bore vote that makes the number of bore voters
    [count] reaches the quorum exactly when [count > participantCount / 2]
    (strictly). Then a non-empty recommendation queue loses its front
    element, which becomes the video of the room, with [currentTime] 0 and
    [isPlaying] true, announced by a [video_changed]; an empty queue only
    sets [isPlaying] to false. In both cases the bore-vote set ends empty
    and the last event sent is the tally 0. Below the quorum the voter is
    only added to the set. *)
Theorem C4_bore_quorum (sid roomId : string) (w : world) (ref : nat) (r : room) :
  get_room w roomId = Some (ref, r) ->
  sid ∉ boreVotes r ->
  let count := S (size (boreVotes r)) in
  exists r',
    room_of (fst (on_bore_vote sid roomId w)) roomId = Some r' /\
    if (length (users r) <? 2 * count)%nat then
      boreVotes r' = ∅ /\
      match recommendQueue r with
      | next :: rest =>
          videoId r' = next /\ currentTime r' = 0%Z /\ isPlaying r' = true /\
          recommendQueue r' = rest /\
          snd (on_bore_vote sid roomId w) =
            [ (ToRoom roomId, out.bore_vote_update count);
              (ToRoom roomId, out.video_changed next 0 true zero_counts);
              (ToRoom roomId, out.recommend_queue_updated rest);
              (ToRoom roomId, out.bore_vote_update 0) ]
      | [] =>
          videoId r' = videoId r /\ currentTime r' = currentTime r /\
          isPlaying r' = false /\
          snd (on_bore_vote sid roomId w) =
            [ (ToRoom roomId, out.bore_vote_update count);
              (ToRoom roomId, out.bore_vote_update 0) ]
      end
    else
      boreVotes r' = {[sid]} ∪ boreVotes r /\
      videoId r' = videoId r /\ currentTime r' = currentTime r /\
      isPlaying r' = isPlaying r /\ recommendQueue r' = recommendQueue r /\
      snd (on_bore_vote sid roomId w) =
        [ (ToRoom roomId, out.bore_vote_update count) ].
Proof.
  intros Hg Hs count.
  rewrite (on_bore_vote_accepted sid roomId w ref r Hg Hs). cbv zeta. fold count.
  destruct (length (users r) <? 2 * count)%nat.
  - destruct (recommendQueue r) as [|next rest]; simpl.
    all: eexists; split; [ unfold room_of; by erewrite get_room_put |].
    all: simpl; repeat split; done.
  - simpl. eexists. split; [unfold room_of; by erewrite get_room_put|].
    simpl. repeat split; done.
Qed.

Lemma C4_bore_quorum_witness :
  exists r',
    room_of (fst (on_bore_vote "b" "r" bored_once_world)) "r" = Some r' /\
    boreVotes r' = {["b"]} ∪ boreVotes bored_once_room /\
    isPlaying r' = isPlaying bored_once_room.
Proof.
  destruct (C4_bore_quorum "b" "r" bored_once_world 0 bored_once_room)
    as (r' & Hr & Hq).
  - by vm_compute.
  - by vm_compute.
  - exists r'. split; [exact Hr|].
    replace (length (users bored_once_room)
               <? 2 * S (size (boreVotes bored_once_room)))%nat
      with false in Hq by (by vm_compute).
    destruct Hq as (Hb & _ & _ & Hp & _). split; [exact Hb | exact Hp].
Defined.

(** ** Repeated votes *)

Lemma on_skip_request_pending now sid roomId d w ref r :
  get_room w roomId = Some (ref, r) -> sid ∈ skipUsers r ->
  on_skip_request now sid roomId d w = (w, []).
Proof.
  intros Hg Hs. unfold on_skip_request. rewrite Hg.
  by rewrite bool_decide_eq_true_2.
Qed.

Lemma on_bore_vote_pending sid roomId w ref r :
  get_room w roomId = Some (ref, r) -> sid ∈ boreVotes r ->
  on_bore_vote sid roomId w = (w, []).
Proof.
  intros Hg Hs. unfold on_bore_vote. rewrite Hg.
  by rewrite bool_decide_eq_true_2.
Qed.

Lemma room_of_get w roomId r1 :
  room_of w roomId = Some r1 -> exists ref, get_room w roomId = Some (ref, r1).
Proof.
  unfold room_of. destruct (get_room w roomId) as [[ref r]|]; [|done].
  simpl. intros [= ->]. by exists ref.
Qed.

(** After a skip vote of [sid], whatever the direction, the voter set of
    the room is empty (quorum reset) or holds [sid]. *)
Lemma skip_voter_pending now sid roomId d w ref r r1 :
  get_room w roomId = Some (ref, r) ->
  room_of (fst (on_skip_request now sid roomId d w)) roomId = Some r1 ->
  skipUsers r1 = ∅ \/ sid ∈ skipUsers r1.
Proof.
  intros Hg. unfold on_skip_request. rewrite Hg.
  destruct (bool_decide (sid ∈ skipUsers r)) eqn:Hs.
  - simpl. unfold room_of. rewrite Hg. simpl. intros [= <-].
    right. by apply bool_decide_eq_true in Hs.
  - cbv beta iota zeta.
    destruct (js_ge_half _ _); cbv beta iota zeta; simpl fst;
      rewrite (room_of_put _ _ _ _ _ _ Hg); intros [= <-]; simpl.
    + by left.
    + right. by apply elem_of_union_l, elem_of_singleton.
Qed.

Lemma bore_voter_pending sid roomId w ref r r1 :
  get_room w roomId = Some (ref, r) ->
  room_of (fst (on_bore_vote sid roomId w)) roomId = Some r1 ->
  boreVotes r1 = ∅ \/ sid ∈ boreVotes r1.
Proof.
  intros Hg. unfold on_bore_vote. rewrite Hg.
  destruct (bool_decide (sid ∈ boreVotes r)) eqn:Hs.
  - simpl. unfold room_of. rewrite Hg. simpl. intros [= <-].
    right. by apply bool_decide_eq_true in Hs.
  - cbv beta iota zeta. destruct (js_gt_half _ _).
    + destruct (advance_or_stop roomId _) as [r' o]. simpl fst.
      unfold room_of. rewrite (get_room_put _ _ _ _ _ Hg). simpl.
      intros [= <-]. by left.
    + simpl fst. unfold room_of. rewrite (get_room_put _ _ _ _ _ Hg). simpl.
      intros [= <-]. right. by apply elem_of_union_l, elem_of_singleton.
Qed.

(** C8. In an existing room, when a skip vote of a connection has not
    ended in a quorum reset (the voter set is not empty afterwards), the
    connection holds a pending vote and a second skip_request of it, for
    any direction and at any time, returns the world as the first left it
    (tallies, voter sets, every room, the registry, the pending callbacks)
    and emits nothing. The same holds for two bore votes. *)
Theorem C8_repeated_vote_noop (now now' : Z) (sid roomId d d' : string)
    (w : world) (ref : nat) (r : room) :
  get_room w roomId = Some (ref, r) ->
  (forall r1,
     room_of (fst (on_skip_request now sid roomId d w)) roomId = Some r1 ->
     skipUsers r1 <> ∅ ->
     sid ∈ skipUsers r1 /\
     on_skip_request now' sid roomId d' (fst (on_skip_request now sid roomId d w))
       = (fst (on_skip_request now sid roomId d w), [])) /\
  (forall r1,
     room_of (fst (on_bore_vote sid roomId w)) roomId = Some r1 ->
     boreVotes r1 <> ∅ ->
     sid ∈ boreVotes r1 /\
     on_bore_vote sid roomId (fst (on_bore_vote sid roomId w))
       = (fst (on_bore_vote sid roomId w), [])).
Proof.
  intros Hg. split; intros r1 Hr1 Hne.
  - destruct (skip_voter_pending _ _ _ _ _ _ _ _ Hg Hr1) as [He|Hin]; [done|].
    split; [done|]. destruct (room_of_get _ _ _ Hr1) as [ref1 Hg1].
    by eapply on_skip_request_pending.
  - destruct (bore_voter_pending _ _ _ _ _ _ Hg Hr1) as [He|Hin]; [done|].
    split; [done|]. destruct (room_of_get _ _ _ Hr1) as [ref1 Hg1].
    by eapply on_bore_vote_pending.
Qed.

Lemma C8_repeated_vote_noop_witness :
  on_skip_request 700 "a" "r" "backward"
      (fst (on_skip_request 200 "a" "r" "forward" joined_world))
    = (fst (on_skip_request 200 "a" "r" "forward" joined_world), []) /\
  on_bore_vote "a" "r" (fst (on_bore_vote "a" "r" joined_world))
    = (fst (on_bore_vote "a" "r" joined_world), []).
Proof.
  destruct (C8_repeated_vote_noop 200 700 "a" "r" "forward" "backward"
              joined_world 0 joined_room) as [Hskip Hbore].
  - by vm_compute.
  - split.
    + apply (Hskip forward_voted_room); by vm_compute.
    + apply (Hbore bored_once_room); by vm_compute.
Defined.

(** ** Votes of connections that are not participants *)

(** C9. In an existing room, a skip_request or a bore_vote of a
    connection that is not in the participants map is accepted like any
    other: the participants map is left as it is (the sender is still not
    a participant), the vote is counted in the tally and, below the quorum,
    the sender is recorded in the voter set; the quorum threshold is
    computed from the number of participants, which does not count the
    sender. *)
Theorem C9_outsider_vote_counts (now : Z) (sid roomId d : string) (w : world)
    (ref : nat) (r : room) (n : Z) :
  get_room w roomId = Some (ref, r) ->
  om_has (users r) sid = false ->
  (sid ∉ skipUsers r ->
   d = "forward" \/ d = "backward" ->
   skipCounts r !! d = Some (VNum n) ->
   exists r',
     room_of (fst (on_skip_request now sid roomId d w)) roomId = Some r' /\
     users r' = users r /\ om_has (users r') sid = false /\
     if (Z.of_nat (length (users r)) <=? 2 * (n + 1))%Z then
       skipUsers r' = ∅ /\
       currentTime r' =
         Z.max (currentTime r + (if String.eqb d "forward" then 10 else -10)) 0
     else
       sid ∈ skipUsers r' /\ skipCounts r' !! d = Some (VNum (n + 1))) /\
  (sid ∉ boreVotes r ->
   exists r',
     room_of (fst (on_bore_vote sid roomId w)) roomId = Some r' /\
     users r' = users r /\ om_has (users r') sid = false /\
     head (snd (on_bore_vote sid roomId w)) =
       Some (ToRoom roomId, out.bore_vote_update (S (size (boreVotes r)))) /\
     if (length (users r) <? 2 * S (size (boreVotes r)))%nat then
       boreVotes r' = ∅ /\
       isPlaying r' = match recommendQueue r with [] => false | _ => true end
     else
       sid ∈ boreVotes r' /\ size (boreVotes r') = S (size (boreVotes r))).
Proof.
  intros Hg Hout. split.
  - intros Hs Hd Hn.
    assert (Hp : String.eqb d "__proto__" = false)
      by (by apply direction_not_proto).
    assert (Hm : js_add1 (js_or_zero (js_get (skipCounts r) d)) = VNum (n + 1))
      by (rewrite (js_get_own _ _ _ Hn); apply js_increment_num).
    rewrite (on_skip_request_counted now sid roomId d w ref r (n + 1) Hg Hs Hp Hm).
    cbv zeta. destruct (Z.of_nat (length (users r)) <=? 2 * (n + 1))%Z; simpl fst.
    + exists (skipped_room d r). split; [by eapply room_of_put|]. by simpl.
    + exists (counted_room sid d (n + 1) r). split; [by eapply room_of_put|].
      simpl. repeat split; try done.
      * by apply elem_of_union_l, elem_of_singleton.
      * apply lookup_insert_eq.
  - intros Hs. rewrite (on_bore_vote_accepted sid roomId w ref r Hg Hs).
    cbv zeta. destruct (length (users r) <? 2 * S (size (boreVotes r)))%nat.
    + destruct (recommendQueue r) as [|next rest]; simpl fst; simpl snd.
      all: eexists; split; [unfold room_of; by erewrite get_room_put|].
      all: by simpl.
    + simpl fst; simpl snd.
      eexists; split; [unfold room_of; by erewrite get_room_put|].
      simpl. repeat split; try done.
      * by apply elem_of_union_l, elem_of_singleton.
      * by apply size_add_voter.
Qed.

(** The connection "x" never joined the room "r" of four participants;
    after the vote of "a", its vote is the second of four and moves the
    playback of everybody. *)
Lemma C9_outsider_vote_counts_witness :
  exists r',
    room_of (fst (on_skip_request 300 "x" "r" "forward" forward_voted_world)) "r"
      = Some r' /\
    om_has (users r') "x" = false /\ currentTime r' = 10%Z.
Proof.
  destruct (C9_outsider_vote_counts 300 "x" "r" "forward" forward_voted_world 0
              forward_voted_room 1) as [Hskip _].
  - by vm_compute.
  - by vm_compute.
  - destruct Hskip as (r' & Hr & _ & Hx & Hq).
    + by vm_compute.
    + by left.
    + by vm_compute.
    + exists r'. split; [exact Hr|]. split; [exact Hx|].
      change (Z.of_nat (length (users forward_voted_room)) <=? 2 * (1 + 1))%Z
        with true in Hq.
      destruct Hq as [_ Ht]. rewrite Ht. by vm_compute.
Defined.

(** ** Directions other than forward and backward *)

Lemma proto_key_false_eqb d :
  proto_key d = false -> String.eqb d "__proto__" = false.
Proof.
  intros H. apply String.eqb_neq. intros ->. by vm_compute in H.
Qed.

Lemma js_increment_from d obj n :
  proto_key d = false ->
  (obj !! d = None /\ n = 0%Z) \/ (obj !! d = Some VNaN /\ n = 0%Z) \/
    obj !! d = Some (VNum n) ->
  js_add1 (js_or_zero (js_get obj d)) = VNum (n + 1).
Proof.
  intros Hp [[Ho ->] | [[Ho ->] | Ho]]; unfold js_get; rewrite Ho.
  - by rewrite Hp.
  - done.
  - apply js_increment_num.
Qed.

(** C10, amended. In an existing room, an accepted skip_request whose
    direction is a string other than "forward" and "backward" that is not
    the name of a property inherited from [Object.prototype] is counted
    under that key: the tally of the key goes from [n] to [n + 1], with [n]
    taken as 0 when the key is absent (or holds NaN), the quorum test runs
    on that tally, and a quorum moves [currentTime] by the backward delta,
    to [max (currentTime - 10) 0], and resets the vote state; below the
    quorum the sender is recorded in the voter set. *)
Theorem C10_other_direction_counted (now : Z) (sid roomId d : string)
    (w : world) (ref : nat) (r : room) (n : Z) :
  get_room w roomId = Some (ref, r) ->
  sid ∉ skipUsers r ->
  d <> "forward" -> d <> "backward" ->
  proto_key d = false ->
  (skipCounts r !! d = None /\ n = 0%Z) \/
    (skipCounts r !! d = Some VNaN /\ n = 0%Z) \/
    skipCounts r !! d = Some (VNum n) ->
  exists r',
    room_of (fst (on_skip_request now sid roomId d w)) roomId = Some r' /\
    if (Z.of_nat (length (users r)) <=? 2 * (n + 1))%Z then
      currentTime r' = Z.max (currentTime r - 10) 0 /\
      skipCounts r' = zero_counts /\ skipUsers r' = ∅ /\
      snd (on_skip_request now sid roomId d w) =
        [ (ToRoom roomId, out.video_seek (currentTime r'));
          (ToRoom roomId, out.skip_counts_update zero_counts) ]
    else
      currentTime r' = currentTime r /\
      skipCounts r' !! d = Some (VNum (n + 1)) /\
      sid ∈ skipUsers r' /\
      snd (on_skip_request now sid roomId d w) =
        [ (ToRoom roomId, out.skip_counts_update (skipCounts r')) ].
Proof.
  intros Hg Hs Hf Hb Hp Hn.
  pose proof (proto_key_false_eqb d Hp) as Hp'.
  pose proof (js_increment_from d (skipCounts r) n Hp Hn) as Hm.
  rewrite (on_skip_request_counted now sid roomId d w ref r (n + 1) Hg Hs Hp' Hm).
  cbv zeta. destruct (Z.of_nat (length (users r)) <=? 2 * (n + 1))%Z;
    simpl fst; simpl snd.
  - exists (skipped_room d r). split; [by eapply room_of_put|].
    simpl. apply String.eqb_neq in Hf. rewrite Hf. repeat split; try done.
  - exists (counted_room sid d (n + 1) r). split; [by eapply room_of_put|].
    simpl. repeat split; try done.
    + apply lookup_insert_eq.
    + by apply elem_of_union_l, elem_of_singleton.
Qed.

(** The first vote of "a", for the direction "sideways", in the room of
    four participants: the key is created with the tally 1. *)
Lemma C10_other_direction_counted_witness :
  exists r',
    room_of (fst (on_skip_request 200 "a" "r" "sideways" joined_world)) "r"
      = Some r' /\
    skipCounts r' !! "sideways" = Some (VNum 1) /\ "a" ∈ skipUsers r'.
Proof.
  destruct (C10_other_direction_counted 200 "a" "r" "sideways" joined_world 0
              joined_room 0) as (r' & Hr & Hq).
  - by vm_compute.
  - by vm_compute.
  - discriminate.
  - discriminate.
  - by vm_compute.
  - left. split; [by vm_compute | reflexivity].
  - exists r'. split; [exact Hr|].
    change (Z.of_nat (length (users joined_room)) <=? 2 * (0 + 1))%Z
      with false in Hq.
    destruct Hq as (_ & Hc & Hu & _). split; [exact Hc | exact Hu].
Defined.

(** C10 as stated fails on names that every object inherits. In the
    fresh room "r" (no participant yet, so any counted vote reaches the
    quorum), a vote for "__proto__" records the voter but creates no tally
    entry and triggers no quorum, while a vote for "toString" stores a text
    instead of a count; a vote for "sideways" does reach the quorum. *)
Lemma C10_inherited_name_counterexample :
  (exists r1,
     room_of (fst (on_skip_request 50 "a" "r" "__proto__" created_world)) "r"
       = Some r1 /\
     skipCounts r1 = zero_counts /\ skipCounts r1 !! "__proto__" = None /\
     "a" ∈ skipUsers r1 /\
     snd (on_skip_request 50 "a" "r" "__proto__" created_world) =
       [(ToRoom "r", out.skip_counts_update zero_counts)]) /\
  (exists r1,
     room_of (fst (on_skip_request 50 "a" "r" "toString" created_world)) "r"
       = Some r1 /\
     skipCounts r1 !! "toString" = Some VText /\ "a" ∈ skipUsers r1) /\
  (exists r1,
     room_of (fst (on_skip_request 50 "a" "r" "sideways" created_world)) "r"
       = Some r1 /\
     skipCounts r1 = zero_counts /\ skipUsers r1 = ∅).
Proof.
  split; [|split].
  - exists (room_at (fst (on_skip_request 50 "a" "r" "__proto__" created_world)) "r").
    repeat split; by vm_compute.
  - exists (room_at (fst (on_skip_request 50 "a" "r" "toString" created_world)) "r").
    repeat split; by vm_compute.
  - exists (room_at (fst (on_skip_request 50 "a" "r" "sideways" created_world)) "r").
    repeat split; by vm_compute.
Qed.

(** ** The registry and the departure of the host *)

Section omap_facts.
Context {V : Type}.
Implicit Types (m : list (string * V)) (k j : string).

Lemma om_get_delete_eq m k : om_get (om_delete m k) k = None.
Proof.
  induction m as [|[k' v'] m IH]; simpl; [done|].
  destruct (String.eqb k' k) eqn:E; [done|]. simpl. by rewrite E.
Qed.

Lemma om_get_delete_None m k j :
  om_get m j = None -> om_get (om_delete m k) j = None.
Proof.
  induction m as [|[k' v'] m IH]; simpl; [done|].
  destruct (String.eqb k' j) eqn:Ej; [done|]. intros H.
  destruct (String.eqb k' k); [by apply IH|]. simpl. rewrite Ej. by apply IH.
Qed.

Lemma om_get_set_ne m k j v :
  String.eqb k j = false -> om_get (om_set m k v) j = om_get m j.
Proof.
  intros Hkj. induction m as [|[k' v'] m IH]; simpl.
  - by rewrite Hkj.
  - destruct (String.eqb k' k) eqn:E; simpl.
    + apply String.eqb_eq in E. subst k'. by rewrite Hkj.
    + destruct (String.eqb k' j); [done|]. apply IH.
Qed.
End omap_facts.

Lemma find_user_room_Some hp m sid roomId ref r :
  find_user_room hp m sid = Some (roomId, ref, r) ->
  hp !! ref = Some r /\ om_has (users r) sid = true.
Proof.
  induction m as [|[k i] m IH]; simpl; [done|].
  destruct (hp !! i) as [r'|] eqn:Hi; [|done].
  destruct (om_has (users r') sid) eqn:Hu; [|done].
  by intros [= -> -> ->].
Qed.

(** What a turn does to the registry. *)
Lemma step_rooms now a w :
  rooms (fst (step now a w)) = rooms w \/
  (exists roomId ref, creates roomId a = true /\
     rooms (fst (step now a w)) = om_set (rooms w) roomId ref) \/
  (exists roomId, rooms (fst (step now a w)) = om_delete (rooms w) roomId).
Proof.
  destruct a as [sid e|]; simpl.
  - destruct e; simpl;
      try (unfold on_disconnect;
           destruct (find_user_room _ _ _) as [[[k i] r]|]; simpl; [|by left];
           destruct (String.eqb (hostId r) sid); simpl; [right; right; by eexists | by left]).
    + right. left. exists roomId, (length (heap w)). simpl.
      by rewrite String.eqb_refl.
    + unfold on_join_room. destruct (get_room w roomId) as [[i r]|]; [|by left].
      destruct (_ && _); by left.
    + unfold on_get_room_info. destruct (get_room w roomId) as [[i r]|]; by left.
    + unfold on_host_current_time_update.
      destruct (get_room w roomId) as [[i r]|]; [|by left].
      destruct (negb _); by left.
    + unfold on_video_play. destruct (get_room w roomId) as [[i r]|]; [|by left].
      destruct (negb _); by left.
    + unfold on_video_pause. destruct (get_room w roomId) as [[i r]|]; [|by left].
      destruct (negb _); by left.
    + unfold on_video_seek. destruct (get_room w roomId) as [[i r]|]; [|by left].
      destruct (negb _); by left.
    + unfold on_change_video. destruct (get_room w roomId) as [[i r]|]; [|by left].
      destruct (negb _); by left.
    + unfold on_add_recommend_video.
      destruct (get_room w roomId) as [[i r]|]; by left.
    + unfold on_video_ended. destruct (get_room w roomId) as [[i r]|]; [|by left].
      destruct (negb _); [by left|].
      destruct (advance_or_stop roomId r). by left.
    + unfold on_bore_vote. destruct (get_room w roomId) as [[i r]|]; [|by left].
      destruct (bool_decide _); [by left|]. cbv zeta.
      destruct (js_gt_half _ _); [|by left].
      destruct (advance_or_stop roomId _). by left.
    + unfold on_skip_request. destruct (get_room w roomId) as [[i r]|]; [|by left].
      destruct (bool_decide _); [by left|]. cbv zeta.
      destruct (js_ge_half _ _); by left.
  - destruct (timers w) as [|tm rest]; [by left|].
    destruct (t_due tm <=? now)%Z; [|by left].
    unfold on_skip_timeout. simpl.
    destruct (heap w !! t_room tm); by left.
Qed.

Lemma step_absent now a w roomId :
  creates roomId a = false ->
  om_get (rooms w) roomId = None ->
  om_get (rooms (fst (step now a w))) roomId = None.
Proof.
  intros Hc Hn.
  destruct (step_rooms now a w) as [-> | [(k & i & Hk & ->) | (k & ->)]].
  - done.
  - rewrite om_get_set_ne; [done|].
    destruct a as [s e|]; [|done]. destruct e; try done. simpl in *.
    apply String.eqb_eq in Hk. by subst.
  - by apply om_get_delete_None.
Qed.

Lemma run_absent tr w roomId :
  never_created roomId tr ->
  om_get (rooms w) roomId = None ->
  om_get (rooms (fst (run tr w))) roomId = None.
Proof.
  revert w. induction tr as [|[now a] tr IH]; intros w Hc Hn; [done|].
  rewrite run_cons. apply Forall_cons in Hc as [Ha Hc].
  apply IH; [done|]. by apply step_absent.
Qed.

Lemma join_unknown_room now sid roomId nickname pw w :
  om_get (rooms w) roomId = None ->
  handle now sid (join_room roomId nickname pw) w
    = (w, [(ToSocket sid, out.error msg_no_room)]).
Proof.
  intros H. simpl. unfold on_join_room, get_room. by rewrite H.
Qed.

(** C5, amended. When a connection disconnects (or sends
    disconnect_button) and the first room of the registry that has it
    among its participants is a room it hosts, that room is removed from
    the registry, the only event emitted is a room_closed for the group of
    the room, the group is emptied, and from then on, as long as no room is
    created again under that identifier, every join_room for it is
    answered by the not-found error and changes nothing. *)
Theorem C5_host_disconnect_closes_room (now : Z) (sid roomId : string)
    (e : event) (w : world) (ref : nat) (r : room) :
  e = disconnect \/ e = disconnect_button ->
  find_user_room (heap w) (rooms w) sid = Some (roomId, ref, r) ->
  hostId r = sid ->
  snd (handle now sid e w) = [(ToRoom roomId, out.room_closed)] /\
  get_room (fst (handle now sid e w)) roomId = None /\
  group_of (fst (handle now sid e w)) roomId = ∅ /\
  forall tr now' s nickname pw,
    never_created roomId tr ->
    handle now' s (join_room roomId nickname pw)
        (fst (run tr (fst (handle now sid e w))))
      = (fst (run tr (fst (handle now sid e w))),
         [(ToSocket s, out.error msg_no_room)]).
Proof.
  intros He Hf Hh.
  assert (Hd : handle now sid e w = on_disconnect sid w)
    by (by destruct He as [-> | ->]).
  rewrite Hd. unfold on_disconnect. rewrite Hf. simpl.
  rewrite Hh, String.eqb_refl. simpl.
  assert (Hgone : om_get (om_delete (rooms w) roomId) roomId = None)
    by apply om_get_delete_eq.
  repeat split.
  - unfold get_room. simpl. by rewrite Hgone.
  - unfold group_of. simpl. by rewrite lookup_delete_eq.
  - intros tr now' s nickname pw Hnc.
    apply (join_unknown_room now'). by apply run_absent.
Qed.

(** The host "h" of the room "r" joined it first and leaves: the three
    other participants are told and the room is gone. *)
Lemma C5_host_disconnect_closes_room_witness :
  snd (handle 900 "h" disconnect joined_world) = [(ToRoom "r", out.room_closed)] /\
  get_room (fst (handle 900 "h" disconnect joined_world)) "r" = None.
Proof.
  destruct (C5_host_disconnect_closes_room 900 "h" "r" disconnect joined_world
              0 joined_room) as (Ho & Hg & _).
  - by left.
  - by vm_compute.
  - by vm_compute.
  - split; [exact Ho | exact Hg].
Defined.

(** C5 as stated fails: a host that created its room without joining it
    is in no participants map, so its disconnection changes nothing and the
    room stays in the registry; and a host that is a participant of an
    older room only leaves that one. *)
Lemma C5_host_not_joined_counterexample :
  handle 60 "h" disconnect created_world = (created_world, []) /\
  (exists r, room_of created_world "r" = Some r /\ hostId r = "h") /\
  (exists r,
     room_of (fst (run two_rooms_run empty_world)) "new" = Some r /\
     hostId r = "h" /\ users r = [("h", "host")]).
Proof.
  split; [by vm_compute|]. split.
  - exists (room_at created_world "r"). split; by vm_compute.
  - exists (room_at (fst (run two_rooms_run empty_world)) "new").
    repeat split; by vm_compute.
Qed.

(** ** The change of video *)

(** What the host's change_video does to a room. *)
Lemma on_change_video_host sid roomId v w ref r :
  get_room w roomId = Some (ref, r) -> sid = hostId r ->
  exists r',
    on_change_video sid roomId v w =
      (put_room ref r' w, [(ToRoom roomId, out.video_changed v 0 true zero_counts)]) /\
    videoId r' = v /\ currentTime r' = 0%Z /\ isPlaying r' = true /\
    skipCounts r' = zero_counts /\ skipUsers r' = ∅ /\
    boreVotes r' = boreVotes r.
Proof.
  intros Hg ->. unfold on_change_video. rewrite Hg, String.eqb_refl. simpl.
  eexists. split; [reflexivity|]. by simpl.
Qed.

(** C6, on the code. With the bore votes of "a" and "b" pending, the
    host changes the video: the playback offset is 0, the skip tallies are
    reset, the skip voter set is empty and the new state is sent to the
    whole room, but the bore-vote set still holds "a" and "b", and the
    single vote of "c" then ends the new video at once. *)
Theorem C6_change_video_keeps_bore_votes :
  let res := handle 200 "h" (change_video "r" "v1") bored_world in
  snd res = [(ToRoom "r", out.video_changed "v1" 0 true zero_counts)] /\
  exists r',
    room_of (fst res) "r" = Some r' /\
    videoId r' = "v1" /\ currentTime r' = 0%Z /\
    skipCounts r' = zero_counts /\ skipUsers r' = ∅ /\
    "a" ∈ boreVotes r' /\ "b" ∈ boreVotes r' /\ size (boreVotes r') = 2 /\
    snd (handle 300 "c" (bore_vote "r") (fst res)) =
      [ (ToRoom "r", out.bore_vote_update 3);
        (ToRoom "r", out.bore_vote_update 0) ].
Proof.
  split; [by vm_compute|].
  exists (room_at (fst (handle 200 "h" (change_video "r" "v1") bored_world)) "r").
  repeat split; by vm_compute.
Qed.

(** ** The expiry of skip votes *)

(** A callback that runs on a room whose tally for its direction is the
    number [n]: the voter leaves the set and the tally becomes
    [max (n - 1) 0]. *)
Lemma on_skip_timeout_numeric tm w r n :
  heap w !! t_room tm = Some r ->
  skipCounts r !! t_direction tm = Some (VNum n) ->
  String.eqb (t_direction tm) "__proto__" = false ->
  exists r',
    on_skip_timeout tm w =
      (put_room (t_room tm) r' w,
       [(ToRoom (t_roomId tm), out.skip_counts_update (skipCounts r'))]) /\
    skipUsers r' = skipUsers r ∖ {[t_socket tm]} /\
    skipCounts r' = <[t_direction tm := VNum (Z.max (n - 1) 0)]> (skipCounts r) /\
    currentTime r' = currentTime r.
Proof.
  intros Hh Hn Hp. unfold on_skip_timeout. rewrite Hh. simpl.
  rewrite (js_get_own _ _ _ Hn). unfold js_set. rewrite Hp. simpl.
  by exists (set_skipCounts
            (<[t_direction tm := VNum (Z.max (n - 1) 0)]> (skipCounts r))
            (set_skipUsers (skipUsers r ∖ {[t_socket tm]}) r)).
Qed.

(** An accepted vote schedules its callback [skip_expiry] milliseconds
    later, behind the callbacks that are already pending. *)
Lemma on_skip_request_schedules now sid roomId d w ref r :
  get_room w roomId = Some (ref, r) -> sid ∉ skipUsers r ->
  timers (fst (on_skip_request now sid roomId d w)) =
    timers w ++ [mkTimer (now + skip_expiry) ref roomId sid d].
Proof.
  intros Hg Hs. unfold on_skip_request. rewrite Hg.
  rewrite bool_decide_eq_false_2 by done. cbv zeta.
  by destruct (js_ge_half _ _).
Qed.

(** The callback does not run before it is due. *)
Lemma fire_before_due now w tm rest :
  timers w = tm :: rest -> (now < t_due tm)%Z -> step now Fire w = (w, []).
Proof.
  intros Ht Hlt. simpl. rewrite Ht.
  destruct (Z.leb_spec (t_due tm) now); [lia | done].
Qed.

(** C7, on the code. "a" and "b" reach the forward quorum at 1100 ms
    and the vote state is reset; "c" votes forward at 1500 ms, which is the
    only pending vote (tally 1, voter set {"c"}). At 3000 ms the callback
    of the vote of "a" runs: the forward tally drops to 0 although "c" is
    still in the voter set, so the vote of "c", cast after the reset, has
    been taken back after 1.5 s by the expiry of another vote. *)
Theorem C7_stale_expiry_decrements_new_vote :
  (exists r3,
     room_of revoted_world "r" = Some r3 /\
     skipCounts r3 !! "forward" = Some (VNum 1) /\
     "c" ∈ skipUsers r3 /\ size (skipUsers r3) = 1) /\
  (t_socket <$> head (timers revoted_world)) = Some "a" /\
  (t_due <$> head (timers revoted_world)) = Some 3000%Z /\
  (exists r4,
     room_of (fst (step 3000 Fire revoted_world)) "r" = Some r4 /\
     skipCounts r4 !! "forward" = Some (VNum 0) /\
     "c" ∈ skipUsers r4 /\ size (skipUsers r4) = 1) /\
  snd (step 3000 Fire revoted_world) =
    [(ToRoom "r", out.skip_counts_update zero_counts)].
Proof.
  split.
  { exists (room_at revoted_world "r"). repeat split; by vm_compute. }
  split; [by vm_compute|]. split; [by vm_compute|].
  split; [|by vm_compute].
  exists (room_at (fst (step 3000 Fire revoted_world)) "r").
  repeat split; by vm_compute.
Qed.

(** ** The tallies of forward and backward are always counts *)

Lemma numeric_counts_zero : numeric_counts zero_counts.
Proof. split; exists 0%Z; by vm_compute. Qed.

(** An assignment [obj[d] = f (obj[d])] keeps the two tallies counts when
    [f] maps counts to counts. *)
Lemma numeric_counts_update obj d (f : jsval -> jsval) :
  (forall n, (0 <= n)%Z -> exists m, f (VNum n) = VNum m /\ (0 <= m)%Z) ->
  numeric_counts obj ->
  numeric_counts (js_set obj d (f (js_get obj d))).
Proof.
  intros Hf [(nf & Hfw & Hnf) (nb & Hbw & Hnb)]. unfold js_set.
  destruct (String.eqb d "__proto__") eqn:Hp; [by split; eexists|].
  destruct (String.eqb_spec d "forward") as [->|Hdf].
  - rewrite (js_get_own _ _ _ Hfw). destruct (Hf nf Hnf) as (m & -> & Hm).
    split.
    + exists m. by rewrite lookup_insert_eq.
    + exists nb. by rewrite lookup_insert_ne.
  - destruct (String.eqb_spec d "backward") as [->|Hdb].
    + rewrite (js_get_own _ _ _ Hbw). destruct (Hf nb Hnb) as (m & -> & Hm).
      split.
      * exists nf. by rewrite lookup_insert_ne.
      * exists m. by rewrite lookup_insert_eq.
    + split.
      * exists nf. by rewrite lookup_insert_ne.
      * exists nb. by rewrite lookup_insert_ne.
Qed.

Lemma numeric_counts_vote obj d :
  numeric_counts obj ->
  numeric_counts (js_set obj d (js_add1 (js_or_zero (js_get obj d)))).
Proof.
  apply (numeric_counts_update obj d (fun v => js_add1 (js_or_zero v))).
  intros n Hn. exists (n + 1)%Z. split; [apply js_increment_num | lia].
Qed.

Lemma numeric_counts_expiry obj d :
  numeric_counts obj ->
  numeric_counts (js_set obj d (js_max0 (js_sub1 (js_get obj d)))).
Proof.
  apply (numeric_counts_update obj d (fun v => js_max0 (js_sub1 v))).
  intros n Hn. exists (Z.max (n - 1) 0). split; [done | lia].
Qed.

Lemma counts_numeric_put w ref r :
  counts_numeric w -> numeric_counts (skipCounts r) ->
  counts_numeric (put_room ref r w).
Proof. intros Hw Hr. unfold counts_numeric, put_room. simpl. by apply Forall_insert. Qed.

Lemma counts_numeric_get w roomId ref r :
  counts_numeric w -> get_room w roomId = Some (ref, r) ->
  numeric_counts (skipCounts r).
Proof.
  intros Hw [_ Hh]%get_room_Some.
  by apply (Forall_lookup_1 _ _ _ _ Hw Hh).
Qed.

Lemma advance_or_stop_counts roomId r :
  skipCounts (fst (advance_or_stop roomId r)) = skipCounts r.
Proof. unfold advance_or_stop. by destruct (recommendQueue r). Qed.

Lemma handle_counts now sid e w :
  counts_numeric w -> counts_numeric (fst (handle now sid e w)).
Proof.
  intros Hw.
  destruct e; simpl;
    [ unfold on_create_room | unfold on_join_room | unfold on_get_room_info
    | unfold on_host_current_time_update | unfold on_video_play
    | unfold on_video_pause | unfold on_video_seek | unfold on_change_video
    | unfold on_add_recommend_video | unfold on_video_ended
    | unfold on_bore_vote | unfold on_skip_request
    | unfold on_disconnect | unfold on_disconnect ].
  1: { unfold counts_numeric. simpl. apply Forall_app. split; [done|].
       apply Forall_singleton. apply numeric_counts_zero. }
  12, 13: destruct (find_user_room (heap w) (rooms w) sid)
            as [[[k i] r]|] eqn:Hf; [|done];
          apply find_user_room_Some in Hf as [Hh _];
          assert (Hp : counts_numeric
                         (put_room i (set_users (om_delete (users r) sid) r) w))
            by (apply counts_numeric_put; [done|];
                apply (Forall_lookup_1 _ _ _ _ Hw Hh));
          simpl; by destruct (String.eqb (hostId r) sid).
  all: destruct (get_room w roomId) as [[ref r]|] eqn:Hg; [|done].
  all: pose proof (counts_numeric_get _ _ _ _ Hw Hg) as Hr.
  - destruct (_ && _); [done|]. by apply counts_numeric_put.
  - done.
  - destruct (negb _); [done|]. by apply counts_numeric_put.
  - destruct (negb _); [done|]. by apply counts_numeric_put.
  - destruct (negb _); [done|]. by apply counts_numeric_put.
  - destruct (negb _); [done|]. by apply counts_numeric_put.
  - destruct (negb _); [done|]. apply counts_numeric_put; [done|].
    apply numeric_counts_zero.
  - by apply counts_numeric_put.
  - destruct (negb _); [done|].
    pose proof (advance_or_stop_counts roomId r) as Ha.
    destruct (advance_or_stop roomId r) as [r' o]. simpl in *.
    apply counts_numeric_put; [done|]. simpl. by rewrite Ha.
  - destruct (bool_decide _); [done|]. cbv zeta.
    destruct (js_gt_half _ _); [|by apply counts_numeric_put].
    pose proof (advance_or_stop_counts roomId
                  (set_boreVotes ({[sid]} ∪ boreVotes r) r)) as Ha.
    destruct (advance_or_stop roomId _) as [r' o]. simpl in *.
    apply counts_numeric_put; [done|]. simpl. by rewrite Ha.
  - destruct (bool_decide _); [done|]. cbv zeta.
    destruct (js_ge_half _ _); simpl.
    + apply (counts_numeric_put w ref); [done|]. apply numeric_counts_zero.
    + apply (counts_numeric_put w ref); [done|]. simpl.
      by apply numeric_counts_vote.
Qed.

(** In every state the server reaches, the tallies of forward and
    backward of every room are counts: the votes, the resets and the
    expiries keep them so. *)
Lemma run_counts tr w :
  counts_numeric w -> counts_numeric (fst (run tr w)).
Proof.
  revert w. induction tr as [|[now a] tr IH]; intros w Hw; [done|].
  rewrite run_cons. apply IH. destruct a as [sid e|]; simpl.
  - by apply handle_counts.
  - destruct (timers w) as [|tm rest]; [done|].
    destruct (t_due tm <=? now)%Z; [|done].
    unfold on_skip_timeout. simpl.
    destruct (heap w !! t_room tm) as [r|] eqn:Hh; [|done]. simpl.
    apply counts_numeric_put; [done|]. simpl.
    apply numeric_counts_expiry. by apply (Forall_lookup_1 _ _ _ _ Hw Hh).
Qed.


(** * Further properties of the handlers *)

(** ** Insertion-ordered maps *)

Section omap_more.
Context {V : Type}.
Implicit Types (m : list (string * V)) (k j : string).

Lemma om_get_set_eq m k v : om_get (om_set m k v) k = Some v.
Proof.
  induction m as [|[k' v'] m IH]; simpl.
  - by rewrite String.eqb_refl.
  - destruct (String.eqb k' k) eqn:E; simpl.
    + by rewrite String.eqb_refl.
    + by rewrite E.
Qed.

Lemma om_set_new m k v : om_get m k = None -> om_set m k v = m ++ [(k, v)].
Proof.
  induction m as [|[k' v'] m IH]; simpl; [done|].
  destruct (String.eqb k' k); [done|]. intros H. by rewrite IH.
Qed.

Lemma om_set_keys m k v :
  is_Some (om_get m k) -> map fst (om_set m k v) = map fst m.
Proof.
  induction m as [|[k' v'] m IH]; simpl; [by intros [? ?]|].
  destruct (String.eqb k' k) eqn:E; simpl.
  - intros _. apply String.eqb_eq in E. by subst.
  - intros H. by rewrite IH.
Qed.

Lemma om_keys_set_elem m k v x :
  x ∈ map fst (om_set m k v) -> x = k \/ x ∈ map fst m.
Proof.
  induction m as [|[k' v'] m IH]; simpl.
  - intros ->%list_elem_of_singleton. by left.
  - destruct (String.eqb k' k) eqn:E; simpl.
    + intros [->|H]%elem_of_cons; [by left|]. right. by apply elem_of_cons; right.
    + intros [->|H]%elem_of_cons.
      * right. by apply elem_of_cons; left.
      * destruct (IH H) as [->|H']; [by left|]. right. by apply elem_of_cons; right.
Qed.

Lemma om_keys_delete_elem m k x :
  x ∈ map fst (om_delete m k) -> x ∈ map fst m.
Proof.
  induction m as [|[k' v'] m IH]; simpl; [done|].
  destruct (String.eqb k' k); simpl.
  - intros H. apply elem_of_cons; right. by apply IH.
  - intros [->|H]%elem_of_cons; apply elem_of_cons; [by left|right; by apply IH].
Qed.

Lemma om_set_NoDup m k v : NoDup (map fst m) -> NoDup (map fst (om_set m k v)).
Proof.
  induction m as [|[k' v'] m IH]; simpl.
  - intros _. apply NoDup_singleton.
  - intros [Hk' Hm]%NoDup_cons. destruct (String.eqb k' k) eqn:E; simpl.
    + apply String.eqb_eq in E. subst. by apply NoDup_cons.
    + apply NoDup_cons. split; [|by apply IH].
      intros [->|H]%om_keys_set_elem; [|done].
      by rewrite String.eqb_refl in E.
Qed.

Lemma om_delete_NoDup m k : NoDup (map fst m) -> NoDup (map fst (om_delete m k)).
Proof.
  induction m as [|[k' v'] m IH]; simpl; [done|].
  intros [Hk' Hm]%NoDup_cons. destruct (String.eqb k' k); simpl; [by apply IH|].
  apply NoDup_cons. split; [|by apply IH].
  intros H%om_keys_delete_elem. done.
Qed.

Lemma om_set_Forall (P : string * V -> Prop) m k v :
  P (k, v) -> Forall P m -> Forall P (om_set m k v).
Proof.
  intros Hk. induction m as [|[k' v'] m IH]; simpl.
  - intros _. by apply Forall_singleton.
  - intros [H1 H2]%Forall_cons. destruct (String.eqb k' k).
    + by apply Forall_cons.
    + apply Forall_cons. split; [done|]. by apply IH.
Qed.

Lemma om_delete_Forall (P : string * V -> Prop) m k :
  Forall P m -> Forall P (om_delete m k).
Proof.
  induction m as [|[k' v'] m IH]; simpl; [done|].
  intros [H1 H2]%Forall_cons. destruct (String.eqb k' k); [by apply IH|].
  apply Forall_cons. split; [done|]. by apply IH.
Qed.
End omap_more.

(** ** Joining a room *)

Lemma get_room_socket_join s g w roomId :
  get_room (socket_join s g w) roomId = get_room w roomId.
Proof. done. Qed.

(** X1. A connection other than the host that asks to join a locked room
    with a wrong or missing password is answered by the wrong-password
    error alone; nothing changes, and it is not put in the group. *)
Theorem join_wrong_password_rejected (sid roomId nickname : string)
    (pw : option string) (w : world) (ref : nat) (r : room) (p : string) :
  get_room w roomId = Some (ref, r) ->
  sid <> hostId r ->
  password r = Some p -> p <> "" ->
  pw <> Some p ->
  on_join_room sid roomId nickname pw w
    = (w, [(ToSocket sid, out.error msg_bad_password)]).
Proof.
  intros Hg Hh Hp Hne Hpw. unfold on_join_room. rewrite Hg.
  rewrite (eqb_host_false _ _ Hh), Hp. simpl.
  apply String.eqb_neq in Hne. rewrite Hne. simpl.
  by rewrite bool_decide_eq_false_2.
Qed.

Lemma join_wrong_password_rejected_witness :
  on_join_room "a" "L" "ann" None locked_world
    = (locked_world, [(ToSocket "a", out.error msg_bad_password)]) /\
  on_join_room "a" "L" "ann" (Some "y") locked_world
    = (locked_world, [(ToSocket "a", out.error msg_bad_password)]).
Proof.
  split.
  - apply (join_wrong_password_rejected "a" "L" "ann" None locked_world 0
             locked_room "x"); by vm_compute.
  - apply (join_wrong_password_rejected "a" "L" "ann" (Some "y") locked_world 0
             locked_room "x"); by vm_compute.
Defined.

Lemma join_condition_false sid pw r :
  sid = hostId r \/ truthy_pw (password r) = false \/ pw = password r ->
  negb (String.eqb sid (hostId r)) && truthy_pw (password r)
    && negb (bool_decide (pw = password r)) = false.
Proof.
  intros [-> | [-> | ->]].
  - by rewrite String.eqb_refl.
  - by rewrite andb_false_r.
  - rewrite bool_decide_eq_true_2 by done. by rewrite andb_false_r.
Qed.

(** X2. The host, anybody when the room has no password, and anybody
    with the right password are admitted: the connection is in the group
    and in the participants map under the nickname it gave, it alone gets
    the room_data (video, offset, playing flag, lock flag, whether it is
    the host, the number and list of participants after its entry), and
    the whole room gets the new list of nicknames. *)
Theorem join_admitted (sid roomId nickname : string) (pw : option string)
    (w : world) (ref : nat) (r : room) :
  get_room w roomId = Some (ref, r) ->
  sid = hostId r \/ truthy_pw (password r) = false \/ pw = password r ->
  exists r' d,
    get_room (fst (on_join_room sid roomId nickname pw w)) roomId
      = Some (ref, r') /\
    om_get (users r') sid = Some nickname /\
    sid ∈ group_of (fst (on_join_room sid roomId nickname pw w)) roomId /\
    snd (on_join_room sid roomId nickname pw w) =
      [ (ToSocket sid, out.room_data d);
        (ToRoom roomId, out.user_list_update (om_values (users r'))) ] /\
    out.rd_isHost d = String.eqb sid (hostId r) /\
    out.rd_isLocked d = truthy_pw (password r) /\
    out.rd_videoId d = videoId r /\ out.rd_currentTime d = currentTime r /\
    out.rd_isPlaying d = isPlaying r /\
    out.rd_usersCount d = length (users r') /\
    out.rd_userList d = om_values (users r').
Proof.
  intros Hg Hc. unfold on_join_room. rewrite Hg, (join_condition_false _ _ _ Hc).
  cbv zeta. simpl fst. simpl snd.
  eexists. eexists. split.
  { apply (get_room_put _ _ _ r). by rewrite get_room_socket_join. }
  simpl. split; [apply om_get_set_eq|].
  split; [|done].
  unfold group_of. simpl. rewrite lookup_insert_eq. simpl.
  by apply elem_of_union_l, elem_of_singleton.
Qed.

Lemma join_admitted_witness :
  exists r',
    get_room (fst (on_join_room "a" "L" "ann" (Some "x") locked_world)) "L"
      = Some (0, r') /\
    om_get (users r') "a" = Some "ann" /\
    "a" ∈ group_of (fst (on_join_room "a" "L" "ann" (Some "x") locked_world)) "L".
Proof.
  destruct (join_admitted "a" "L" "ann" (Some "x") locked_world 0 locked_room)
    as (r' & d & Hr & Hu & Hgr & _).
  - by vm_compute.
  - right. right. by vm_compute.
  - exists r'. by repeat split.
Defined.

(** X3. An admitted connection that is not yet a participant is appended
    at the end of the participants map (join order); one that is already a
    participant keeps its place and only its nickname is replaced, so the
    number of participants does not grow. *)
Theorem join_keeps_order (sid roomId nickname : string) (pw : option string)
    (w : world) (ref : nat) (r : room) :
  get_room w roomId = Some (ref, r) ->
  sid = hostId r \/ truthy_pw (password r) = false \/ pw = password r ->
  exists r',
    get_room (fst (on_join_room sid roomId nickname pw w)) roomId
      = Some (ref, r') /\
    (om_get (users r) sid = None ->
       users r' = users r ++ [(sid, nickname)]) /\
    (is_Some (om_get (users r) sid) ->
       map fst (users r') = map fst (users r) /\
       length (users r') = length (users r)).
Proof.
  intros Hg Hc. unfold on_join_room. rewrite Hg, (join_condition_false _ _ _ Hc).
  cbv zeta. simpl fst.
  eexists. split.
  { apply (get_room_put _ _ _ r). by rewrite get_room_socket_join. }
  simpl. split.
  - apply om_set_new.
  - intros Hs. pose proof (om_set_keys (users r) sid nickname Hs) as Hk.
    split; [done|].
    by rewrite <- (length_map fst (om_set _ _ _)), Hk, length_map.
Qed.

Lemma join_keeps_order_witness :
  exists r',
    get_room (fst (on_join_room "b" "r" "bobby" None joined_world)) "r"
      = Some (0, r') /\
    map fst (users r') = ["h"; "a"; "b"; "c"].
Proof.
  destruct (join_keeps_order "b" "r" "bobby" None joined_world 0 joined_room)
    as (r' & Hr & _ & Hk).
  - by vm_compute.
  - right. left. by vm_compute.
  - exists r'. split; [exact Hr|].
    destruct Hk as [Hk _]; [exists "bob"; by vm_compute|].
    rewrite Hk. by vm_compute.
Defined.

(** ** Creating a room *)

Lemma get_room_created sid roomId vid pw w :
  get_room (fst (on_create_room sid roomId vid pw w)) roomId =
    Some (length (heap w),
          mkRoom sid vid 0 false zero_counts ∅ []
            (if truthy_pw pw then pw else None) ∅ []).
Proof.
  unfold on_create_room, get_room. simpl.
  rewrite om_get_set_eq. by rewrite list_lookup_middle.
Qed.

(** X4. Whatever the state, after a create_room the room exists and
    get_room_info answers whether it is locked: it is exactly when the
    password given is a non-empty string, so an empty password leaves the
    room open; the answer carries nothing else. *)
Theorem create_then_room_info (sid sid' roomId vid : string)
    (pw : option string) (w : world) :
  on_get_room_info sid' roomId (fst (on_create_room sid roomId vid pw w)) =
    (fst (on_create_room sid roomId vid pw w),
     [(ToSocket sid',
       out.room_info (match pw with
                      | Some s => negb (String.eqb s "")
                      | None => false
                      end))]).
Proof.
  unfold on_get_room_info. rewrite get_room_created. simpl.
  destruct pw as [s|]; [|done]. simpl. destruct (String.eqb s "") eqn:E; [done|].
  simpl. by rewrite E.
Qed.

(** X5. create_room never fails and never looks at what the identifier
    holds: under an identifier that is taken, whoever sends it becomes the
    host of a fresh room (no participant, offset 0, paused, zero tallies)
    that replaces the old one at the same place of the registry; the old
    room object and every other room stay as they are. *)
Theorem create_room_replaces (sid roomId vid : string) (pw : option string)
    (w : world) :
  let w' := fst (on_create_room sid roomId vid pw w) in
  (exists r',
     get_room w' roomId = Some (length (heap w), r') /\
     hostId r' = sid /\ videoId r' = vid /\ users r' = [] /\
     currentTime r' = 0%Z /\ isPlaying r' = false /\
     skipCounts r' = zero_counts /\ skipUsers r' = ∅ /\ boreVotes r' = ∅ /\
     recommendQueue r' = []) /\
  (is_Some (om_get (rooms w) roomId) ->
     map fst (rooms w') = map fst (rooms w)) /\
  (om_get (rooms w) roomId = None ->
     map fst (rooms w') = map fst (rooms w) ++ [roomId]) /\
  (forall i r, heap w !! i = Some r -> heap w' !! i = Some r) /\
  (forall other ref r, other <> roomId ->
     get_room w other = Some (ref, r) -> get_room w' other = Some (ref, r)) /\
  sid ∈ group_of w' roomId.
Proof.
  intros w'. subst w'. split; [|split; [|split; [|split; [|split]]]].
  - eexists. split; [apply get_room_created|]. by simpl.
  - intros Hs. simpl. by apply om_set_keys.
  - intros Hn. simpl. rewrite (om_set_new _ _ _ Hn). by rewrite map_app.
  - intros i r Hi. simpl. by apply lookup_app_l_Some.
  - intros other ref r Hne [Hreg Hh]%get_room_Some. unfold get_room. simpl.
    rewrite om_get_set_ne by (apply String.eqb_neq; congruence).
    rewrite Hreg. by rewrite (lookup_app_l_Some _ _ _ _ Hh).
  - unfold group_of. simpl. rewrite lookup_insert_eq. simpl.
    by apply elem_of_union_l, elem_of_singleton.
Qed.

Lemma create_room_replaces_witness :
  map fst (rooms (fst (on_create_room "z" "r" "v9" None joined_world)))
    = map fst (rooms joined_world) /\
  "z" ∈ group_of (fst (on_create_room "z" "r" "v9" None joined_world)) "r".
Proof.
  destruct (create_room_replaces "z" "r" "v9" None joined_world)
    as (_ & Hk & _ & _ & _ & Hg).
  split; [|exact Hg]. apply Hk. exists 0. by vm_compute.
Defined.

(** ** Events for an unknown room *)

(** X6. For a room identifier that is not in the registry, join_room and
    get_room_info are answered by the not-found error and every other
    event that names the room is dropped without an answer; none of them
    changes anything, and a dropped skip_request schedules no callback. *)
Theorem unknown_room_ignored (now : Z) (sid roomId : string) (w : world) :
  om_get (rooms w) roomId = None ->
  (forall n pw, handle now sid (join_room roomId n pw) w
                = (w, [(ToSocket sid, out.error msg_no_room)])) /\
  handle now sid (get_room_info roomId) w
    = (w, [(ToSocket sid, out.error msg_no_room)]) /\
  (forall e,
     e = video_play roomId \/ e = video_pause roomId \/
     (exists t, e = video_seek roomId t) \/
     (exists t, e = host_current_time_update roomId t) \/
     (exists v, e = change_video roomId v) \/
     (exists v, e = add_recommend_video roomId v) \/
     e = video_ended roomId \/ e = bore_vote roomId \/
     (exists d, e = skip_request roomId d) ->
     handle now sid e w = (w, [])) /\
  (forall message, on_chat_message sid roomId message w = []).
Proof.
  intros Hn.
  assert (Hg : get_room w roomId = None) by (unfold get_room; by rewrite Hn).
  split; [intros; by apply join_unknown_room|].
  split; [simpl; unfold on_get_room_info; by rewrite Hg|].
  split; [|intros; unfold on_chat_message; by rewrite Hg].
  intros e He.
  destruct He as [->|[->|[[t ->]|[[t ->]|[[v ->]|[[v ->]|[->|[->|[d ->]]]]]]]]];
    simpl;
    unfold on_video_play, on_video_pause, on_video_seek,
      on_host_current_time_update, on_change_video, on_add_recommend_video,
      on_video_ended, on_bore_vote, on_skip_request;
    by rewrite Hg.
Qed.

Lemma unknown_room_ignored_witness :
  handle 50 "a" (skip_request "nowhere" "forward") joined_world
    = (joined_world, []) /\
  handle 50 "a" (get_room_info "nowhere") joined_world
    = (joined_world, [(ToSocket "a", out.error msg_no_room)]).
Proof.
  destruct (unknown_room_ignored 50 "a" "nowhere" joined_world)
    as (_ & Hi & He & _).
  - by vm_compute.
  - split; [|exact Hi]. apply He. do 8 right. by exists "forward".
Defined.

(** ** Callbacks of replaced and deleted rooms *)

(** X7. The callback of a skip vote writes to the room object it was
    created for and to nothing else: a room that the registry now holds
    under the same identifier as another object is left as it is, and so
    are the registry and the groups, although the tallies of the old
    object are sent to the group of the identifier. *)
Theorem stale_callback_spares_new_room (tm : timer) (w : world)
    (ref : nat) (r : room) :
  get_room w (t_roomId tm) = Some (ref, r) ->
  ref <> t_room tm ->
  get_room (fst (on_skip_timeout tm w)) (t_roomId tm) = Some (ref, r) /\
  rooms (fst (on_skip_timeout tm w)) = rooms w /\
  groups (fst (on_skip_timeout tm w)) = groups w /\
  forall old, heap w !! t_room tm = Some old ->
    exists c, snd (on_skip_timeout tm w)
              = [(ToRoom (t_roomId tm), out.skip_counts_update c)] /\
              forall k, k <> t_direction tm -> c !! k = skipCounts old !! k.
Proof.
  intros [Hreg Hh]%get_room_Some Hne. unfold on_skip_timeout.
  destruct (heap w !! t_room tm) as [old|] eqn:Ho.
  - simpl. split; [|split; [done|split; [done|]]].
    + unfold get_room. simpl. rewrite Hreg.
      rewrite list_lookup_insert_ne by done. by rewrite Hh.
    + intros ? [= <-]. eexists. split; [done|].
      intros k Hk. unfold js_set.
      destruct (String.eqb (t_direction tm) "__proto__"); [done|].
      by rewrite lookup_insert_ne.
  - simpl. split; [|split; [done|split; [done|]]].
    + unfold get_room. by rewrite Hreg, Hh.
    + by intros.
Qed.

Lemma stale_callback_spares_new_room_witness :
  get_room (fst (on_skip_timeout pending_vote replaced_world)) "r"
    = Some (1, replaced_room) /\
  hostId replaced_room = "z".
Proof.
  destruct (stale_callback_spares_new_room pending_vote replaced_world 1
              replaced_room) as (Hg & _).
  - by vm_compute.
  - by vm_compute.
  - split; [exact Hg | by vm_compute].
Defined.

(** ** The departure of a participant *)

Lemma om_delete_length {V : Type} (m : list (string * V)) (k : string) :
  length (om_delete m k) <= length m /\
  (is_Some (om_get m k) -> length (om_delete m k) < length m).
Proof.
  induction m as [|[k' v'] m [IH1 IH2]]; simpl.
  - split; [lia|]. by intros [? ?].
  - destruct (String.eqb k' k); simpl.
    + split; [lia|]. intros _. lia.
    + split; [lia|]. intros H. specialize (IH2 H). lia.
Qed.

(** X8. When a connection leaves (disconnect or disconnect_button) and
    the first room that has it as a participant is hosted by somebody
    else, only that room object changes: the connection is taken out of
    the participants map, which gets smaller, and the room is sent the
    nicknames that remain. The room stays registered, and the skip votes,
    the bore votes and the pending callbacks of the connection are kept. *)
Theorem participant_leaves (now : Z) (sid roomId : string) (e : event)
    (w : world) (ref : nat) (r : room) :
  e = disconnect \/ e = disconnect_button ->
  find_user_room (heap w) (rooms w) sid = Some (roomId, ref, r) ->
  hostId r <> sid ->
  exists r',
    handle now sid e w =
      (put_room ref r' w,
       [(ToRoom roomId, out.user_list_update (om_values (users r')))]) /\
    users r' = om_delete (users r) sid /\
    om_get (users r') sid = None /\
    length (users r') < length (users r) /\
    hostId r' = hostId r /\
    skipUsers r' = skipUsers r /\ skipCounts r' = skipCounts r /\
    boreVotes r' = boreVotes r /\ recommendQueue r' = recommendQueue r /\
    currentTime r' = currentTime r /\ isPlaying r' = isPlaying r.
Proof.
  intros He Hf Hh.
  assert (Hd : handle now sid e w = on_disconnect sid w)
    by (by destruct He as [-> | ->]).
  rewrite Hd. unfold on_disconnect. rewrite Hf. simpl.
  apply String.eqb_neq in Hh. rewrite Hh.
  apply find_user_room_Some in Hf as [_ Hu].
  exists (set_users (om_delete (users r) sid) r). split; [reflexivity|]. simpl.
  split; [done|]. split; [apply om_get_delete_eq|]. split; [|done].
  apply om_delete_length. unfold om_has in Hu.
  destruct (om_get (users r) sid); [by eexists|done].
Qed.

Lemma participant_leaves_witness :
  exists r',
    fst (handle 900 "b" disconnect forward_voted_world)
      = put_room 0 r' forward_voted_world /\
    map fst (users r') = ["h"; "a"; "c"] /\
    skipUsers r' = skipUsers forward_voted_room.
Proof.
  destruct (participant_leaves 900 "b" "r" disconnect forward_voted_world 0
              forward_voted_room)
    as (r' & Hr & Hu & _ & _ & _ & Hs & _).
  - by left.
  - by vm_compute.
  - by vm_compute.
  - exists r'. rewrite Hr. split; [done|]. split; [|exact Hs].
    rewrite Hu. by vm_compute.
Defined.

(** ** The recommendation queue *)

Lemma get_room_add_recommend sid roomId vid w ref r :
  get_room w roomId = Some (ref, r) ->
  get_room (fst (on_add_recommend_video sid roomId vid w)) roomId
    = Some (ref, set_recommendQueue (recommendQueue r ++ [vid]) r).
Proof.
  intros Hg. unfold on_add_recommend_video. rewrite Hg. simpl.
  by apply (get_room_put _ _ _ r).
Qed.

Lemma get_room_enqueue_all sid roomId vids w ref r :
  get_room w roomId = Some (ref, r) ->
  get_room (enqueue_all sid roomId vids w) roomId
    = Some (ref, set_recommendQueue (recommendQueue r ++ vids) r).
Proof.
  revert w r. induction vids as [|v vids IH]; intros w r Hg.
  - simpl. rewrite app_nil_r. by destruct r.
  - change (enqueue_all sid roomId (v :: vids) w)
      with (enqueue_all sid roomId vids
              (fst (on_add_recommend_video sid roomId v w))).
    rewrite (IH _ _ (get_room_add_recommend sid roomId v w ref r Hg)).
    simpl. by rewrite <- app_assoc.
Qed.

Lemma get_room_video_ended sid roomId w ref r :
  get_room w roomId = Some (ref, r) -> sid = hostId r ->
  get_room (fst (on_video_ended sid roomId w)) roomId =
    Some (ref,
          match recommendQueue r with
          | next :: rest => advanced_room next rest r
          | [] => stopped_room r
          end).
Proof.
  intros Hg ->. unfold on_video_ended. rewrite Hg, String.eqb_refl. simpl.
  unfold advance_or_stop.
  destruct (recommendQueue r) as [|next rest]; simpl;
    by apply (get_room_put _ _ _ r).
Qed.

Lemma get_room_end_videos sid roomId k w ref r x :
  get_room w roomId = Some (ref, r) -> sid = hostId r ->
  recommendQueue r !! k = Some x ->
  exists r',
    get_room (end_videos sid roomId (S k) w) roomId = Some (ref, r') /\
    hostId r' = hostId r /\ videoId r' = x /\
    recommendQueue r' = drop (S k) (recommendQueue r) /\
    currentTime r' = 0%Z /\ isPlaying r' = true /\ boreVotes r' = ∅.
Proof.
  intros Hg Hh. revert x. induction k as [|k IH]; intros x Hx.
  - simpl. rewrite (get_room_video_ended _ _ _ _ _ Hg Hh).
    destruct (recommendQueue r) as [|next rest]; [done|].
    simpl in Hx. injection Hx as ->. eexists. split; [done|]. by simpl.
  - destruct (lookup_lt_is_Some_2 (recommendQueue r) k) as [y Hy].
    { apply lookup_lt_Some in Hx. lia. }
    destruct (IH y Hy) as (rk & Hgk & Hhk & _ & Hq & _).
    change (end_videos sid roomId (S (S k)) w)
      with (fst (on_video_ended sid roomId (end_videos sid roomId (S k) w))).
    rewrite (get_room_video_ended _ _ _ _ _ Hgk) by congruence.
    rewrite Hq, (drop_S _ _ _ Hx).
    eexists. split; [done|]. by simpl.
Qed.

(** X9. The recommendation queue is first in, first out: after the
    videos [vids] have been recommended in a room, by any connection, the
    [k+1]-th video_ended of the host plays the video at position [k] of
    the queue as it was enqueued, from offset 0, and leaves the videos
    after it in the queue, in order. *)
Theorem queue_fifo (sid host roomId : string) (vids : list string) (k : nat)
    (w : world) (ref : nat) (r : room) (x : string) :
  get_room w roomId = Some (ref, r) ->
  host = hostId r ->
  (recommendQueue r ++ vids) !! k = Some x ->
  exists r',
    get_room (end_videos host roomId (S k) (enqueue_all sid roomId vids w)) roomId
      = Some (ref, r') /\
    videoId r' = x /\
    recommendQueue r' = drop (S k) (recommendQueue r ++ vids) /\
    currentTime r' = 0%Z /\ isPlaying r' = true.
Proof.
  intros Hg Hh Hx.
  pose proof (get_room_enqueue_all sid roomId vids w ref r Hg) as Hg'.
  destruct (get_room_end_videos host roomId k _ ref _ x Hg' Hh Hx)
    as (r' & Hr & _ & Hv & Hq & Ht & Hp & _).
  exists r'. by repeat split.
Qed.

Lemma queue_fifo_witness :
  exists r',
    get_room (end_videos "h" "r" 3 (enqueue_all "c" "r" ["v4"; "v5"] queued_world)) "r"
      = Some (0, r') /\
    videoId r' = "v3" /\ recommendQueue r' = ["v4"; "v5"].
Proof.
  destruct (queue_fifo "c" "h" "r" ["v4"; "v5"] 2 queued_world 0 queued_room "v3")
    as (r' & Hr & Hv & Hq & _).
  - by vm_compute.
  - by vm_compute.
  - by vm_compute.
  - exists r'. split; [exact Hr|]. split; [exact Hv|]. rewrite Hq. by vm_compute.
Defined.

(** X10. The host's video_ended never touches the skip votes: the
    tallies and the voter set of the room are kept as they are, while the
    bore votes are cleared and the tally 0 is the last event sent; yet,
    when the queue is not empty, the video_changed sent to the room
    announces zero tallies. With an empty queue the video and the offset
    are kept and playback stops. *)
Theorem video_ended_keeps_skip_votes (sid roomId : string) (w : world)
    (ref : nat) (r : room) :
  get_room w roomId = Some (ref, r) ->
  sid = hostId r ->
  exists r',
    get_room (fst (on_video_ended sid roomId w)) roomId = Some (ref, r') /\
    skipCounts r' = skipCounts r /\ skipUsers r' = skipUsers r /\
    users r' = users r /\ boreVotes r' = ∅ /\
    last (snd (on_video_ended sid roomId w))
      = Some (ToRoom roomId, out.bore_vote_update 0) /\
    match recommendQueue r with
    | next :: rest =>
        head (snd (on_video_ended sid roomId w))
          = Some (ToRoom roomId, out.video_changed next 0 true zero_counts)
    | [] =>
        videoId r' = videoId r /\ currentTime r' = currentTime r /\
        isPlaying r' = false /\
        snd (on_video_ended sid roomId w)
          = [(ToRoom roomId, out.bore_vote_update 0)]
    end.
Proof.
  intros Hg Hh. rewrite (get_room_video_ended _ _ _ _ _ Hg Hh).
  subst sid. unfold on_video_ended. rewrite Hg, String.eqb_refl. simpl.
  unfold advance_or_stop.
  destruct (recommendQueue r) as [|next rest]; simpl; eexists; by repeat split.
Qed.

Lemma video_ended_keeps_skip_votes_witness :
  exists r',
    get_room (fst (on_video_ended "h" "r" forward_voted_world)) "r"
      = Some (0, r') /\
    skipCounts r' !! "forward" = Some (VNum 1) /\ isPlaying r' = false.
Proof.
  destruct (video_ended_keeps_skip_votes "h" "r" forward_voted_world 0
              forward_voted_room) as (r' & Hr & Hc & _ & _ & _ & _ & Hq).
  - by vm_compute.
  - by vm_compute.
  - exists r'. split; [exact Hr|]. rewrite Hc.
    change (recommendQueue forward_voted_room) with (@nil string) in Hq.
    destruct Hq as (_ & _ & Hp & _). split; [by vm_compute | exact Hp].
Defined.

(** ** A skip vote and its expiry *)

Lemma put_room_put_back w ref r r1 :
  heap w !! ref = Some r -> put_room ref r (put_room ref r1 w) = w.
Proof.
  intros Hh. unfold put_room, set_heap. simpl.
  rewrite list_insert_insert_eq, (list_insert_id _ _ _ Hh). by destruct w.
Qed.

Lemma voter_removed (sid : string) (s : gset string) :
  sid ∉ s -> ({[sid]} ∪ s) ∖ {[sid]} = s.
Proof.
  intros Hs. apply set_eq. intros x.
  rewrite elem_of_difference, elem_of_union, elem_of_singleton. split.
  - by intros [[->|Hx] Hne].
  - intros Hx. split; [by right|]. by intros ->.
Qed.

(** X11. A skip vote that stays below the quorum is taken back by its
    own expiry: when no other callback is pending and nothing happens in
    between, the callback does nothing before 2000 ms have passed, and
    from then on it brings the server back to the state before the vote
    (tally, voter set, pending callbacks) and sends the room the tallies
    as they were. *)
Theorem vote_then_expiry_restores (now : Z) (sid roomId d : string)
    (w : world) (ref : nat) (r : room) (n : Z) :
  get_room w roomId = Some (ref, r) ->
  timers w = [] ->
  sid ∉ skipUsers r ->
  d = "forward" \/ d = "backward" ->
  skipCounts r !! d = Some (VNum n) -> (0 <= n)%Z ->
  (2 * (n + 1) < Z.of_nat (length (users r)))%Z ->
  (forall t, (t < now + 2000)%Z ->
     step t Fire (fst (on_skip_request now sid roomId d w))
       = (fst (on_skip_request now sid roomId d w), [])) /\
  (forall t, (now + 2000 <= t)%Z ->
     step t Fire (fst (on_skip_request now sid roomId d w))
       = (w, [(ToRoom roomId, out.skip_counts_update (skipCounts r))])).
Proof.
  intros Hg Ht Hs Hd Hn Hn0 Hq.
  assert (Hp : String.eqb d "__proto__" = false)
    by (by apply direction_not_proto).
  assert (Hm : js_add1 (js_or_zero (js_get (skipCounts r) d)) = VNum (n + 1))
    by (rewrite (js_get_own _ _ _ Hn); apply js_increment_num).
  rewrite (on_skip_request_counted now sid roomId d w ref r (n + 1) Hg Hs Hp Hm).
  cbv zeta.
  destruct (Z.leb_spec (Z.of_nat (length (users r))) (2 * (n + 1))); [lia|].
  simpl fst. rewrite Ht. simpl app.
  destruct (get_room_Some _ _ _ _ Hg) as [_ Hh].
  split; intros t Hlt; simpl; unfold skip_expiry.
  - destruct (Z.leb_spec (now + 2000) t); [lia|done].
  - destruct (Z.leb_spec (now + 2000) t); [|lia].
    unfold on_skip_timeout. simpl.
    rewrite list_lookup_insert_eq by (by eapply lookup_lt_Some). simpl.
    rewrite (js_get_own _ d (VNum (n + 1))) by apply lookup_insert_eq.
    unfold js_set. rewrite Hp. simpl.
    replace (n + 1 - 1)%Z with n by lia. rewrite Z.max_l by lia.
    rewrite insert_insert_eq, (insert_id _ _ _ Hn).
    rewrite (voter_removed _ _ Hs).
    replace (set_skipCounts (skipCounts r)
               (set_skipUsers (skipUsers r) (counted_room sid d (n + 1) r)))
      with r by (by destruct r).
    f_equal.
    change (set_timers [] (set_timers [_] (put_room ref (counted_room sid d (n + 1) r) w)))
      with (set_timers [] (put_room ref (counted_room sid d (n + 1) r) w)).
    rewrite <- (put_room_put_back w ref r (counted_room sid d (n + 1) r) Hh) at 2.
    unfold put_room, set_heap, set_timers. simpl. by rewrite Ht.
Qed.

Lemma vote_then_expiry_restores_witness :
  step 2200 Fire (fst (on_skip_request 200 "a" "r" "forward" joined_world))
    = (joined_world,
       [(ToRoom "r", out.skip_counts_update (skipCounts joined_room))]).
Proof.
  apply (vote_then_expiry_restores 200 "a" "r" "forward" joined_world 0
           joined_room 0).
  - by vm_compute.
  - by vm_compute.
  - by vm_compute.
  - by left.
  - by vm_compute.
  - lia.
  - by vm_compute.
  - lia.
Defined.

(** X12. In a room of at most two participants, in particular in a room
    nobody has joined yet, one accepted skip vote is a quorum by itself
    whoever casts it: the playback offset moves at once and the vote state
    is reset. One accepted bore vote is a quorum by itself in a room of at
    most one participant. *)
Theorem small_room_single_vote_quorum (now : Z) (sid roomId d : string)
    (w : world) (ref : nat) (r : room) (delta : Z) :
  get_room w roomId = Some (ref, r) ->
  numeric_counts (skipCounts r) ->
  (d = "forward" /\ delta = 10%Z) \/ (d = "backward" /\ delta = (-10)%Z) ->
  (length (users r) <= 2 -> sid ∉ skipUsers r ->
   exists r',
     get_room (fst (on_skip_request now sid roomId d w)) roomId = Some (ref, r') /\
     currentTime r' = Z.max (currentTime r + delta) 0 /\
     skipUsers r' = ∅ /\ skipCounts r' = zero_counts) /\
  (length (users r) <= 1 -> sid ∉ boreVotes r ->
   exists r',
     get_room (fst (on_bore_vote sid roomId w)) roomId = Some (ref, r') /\
     boreVotes r' = ∅ /\
     last (snd (on_bore_vote sid roomId w))
       = Some (ToRoom roomId, out.bore_vote_update 0)).
Proof.
  intros Hg [(nf & Hf & Hnf) (nb & Hb & Hnb)] Hd. split.
  - intros Hlen Hs.
    assert (exists n, skipCounts r !! d = Some (VNum n) /\ (0 <= n)%Z)
      as (n & Hn & Hn0).
    { destruct Hd as [[-> _]|[-> _]]; eauto. }
    assert (Hp : String.eqb d "__proto__" = false)
      by (apply direction_not_proto; tauto).
    assert (Hm : js_add1 (js_or_zero (js_get (skipCounts r) d)) = VNum (n + 1))
      by (rewrite (js_get_own _ _ _ Hn); apply js_increment_num).
    rewrite (on_skip_request_counted now sid roomId d w ref r (n + 1) Hg Hs Hp Hm).
    cbv zeta.
    destruct (Z.leb_spec (Z.of_nat (length (users r))) (2 * (n + 1))); [|lia].
    simpl fst. exists (skipped_room d r).
    split; [by apply (get_room_put _ _ _ r)|]. simpl.
    split; [|done]. destruct Hd as [[Hd Hdelta] | [Hd Hdelta]]; by rewrite Hd, Hdelta.
  - intros Hlen Hs.
    rewrite (on_bore_vote_accepted sid roomId w ref r Hg Hs). cbv zeta.
    destruct (Nat.ltb_spec (length (users r)) (2 * S (size (boreVotes r))));
      [|lia].
    destruct (recommendQueue r) as [|next rest]; simpl;
      (eexists; split; [by apply (get_room_put _ _ _ r)|done]).
Qed.

Lemma small_room_single_vote_quorum_witness :
  exists r',
    get_room (fst (on_skip_request 50 "x" "r" "forward" created_world)) "r"
      = Some (0, r') /\
    currentTime r' = 10%Z /\ skipUsers r' = ∅.
Proof.
  destruct (small_room_single_vote_quorum 50 "x" "r" "forward" created_world 0
              (room_at created_world "r") 10) as [Hskip _].
  - by vm_compute.
  - split; exists 0%Z; by vm_compute.
  - by left.
  - destruct Hskip as (r' & Hr & Ht & Hu & _).
    + vm_compute. lia.
    + by vm_compute.
    + exists r'. split; [exact Hr|]. split; [|exact Hu]. rewrite Ht. by vm_compute.
Defined.

(** ** The shape of a turn and the invariants of the store *)

Lemma room_step_same r r' :
  hostId r' = hostId r -> password r' = password r -> users r' = users r ->
  room_step r r'.
Proof. intros. split; [done|]. split; [done|]. by left. Qed.

Lemma shape_write w ref r r' rid :
  get_room w rid = Some (ref, r) -> room_step r r' ->
  step_shape w (put_room ref r' w).
Proof.
  intros [_ Hh]%get_room_Some Hs. right. split; [|split; by left].
  right. by exists ref, r, r'.
Qed.

Lemma shape_idle w : step_shape w w.
Proof. right. split; [by left|]. split; by left. Qed.

Lemma handle_shape now sid e w : step_shape w (fst (handle now sid e w)).
Proof.
  destruct e; simpl;
    [ unfold on_create_room | unfold on_join_room | unfold on_get_room_info
    | unfold on_host_current_time_update | unfold on_video_play
    | unfold on_video_pause | unfold on_video_seek | unfold on_change_video
    | unfold on_add_recommend_video | unfold on_video_ended
    | unfold on_bore_vote | unfold on_skip_request
    | unfold on_disconnect | unfold on_disconnect ].
  1: { left. simpl. eexists roomId, _.
       split; [|split; [reflexivity|split; reflexivity]]. reflexivity. }
  12, 13: destruct (find_user_room (heap w) (rooms w) sid)
            as [[[k i] r]|] eqn:Hf; [|apply shape_idle];
          apply find_user_room_Some in Hf as [Hh _]; simpl;
          assert (Hrs : room_step r (set_users (om_delete (users r) sid) r))
            by (split; [done|]; split; [done|]; right; right; by eexists);
          destruct (String.eqb (hostId r) sid); simpl; right;
          (split; [right; by exists i, r, (set_users (om_delete (users r) sid) r)|]);
          (split; [|by left]); [right; by eexists | by left].
  all: destruct (get_room w roomId) as [[ref r]|] eqn:Hg; [|apply shape_idle].
  - destruct (_ && _); [apply shape_idle|]. simpl.
    destruct (get_room_Some _ _ _ _ Hg) as [_ Hh].
    right. split; [|split; by left]. right. eexists ref, r, _.
    split; [done|]. split; [|done].
    split; [done|]. split; [done|]. right. left. by eexists _, _.
  - apply shape_idle.
  - destruct (negb _); [apply shape_idle|]. simpl.
    eapply shape_write; [done|]. by apply room_step_same.
  - destruct (negb _); [apply shape_idle|]. simpl.
    eapply shape_write; [done|]. by apply room_step_same.
  - destruct (negb _); [apply shape_idle|]. simpl.
    eapply shape_write; [done|]. by apply room_step_same.
  - destruct (negb _); [apply shape_idle|]. simpl.
    eapply shape_write; [done|]. by apply room_step_same.
  - destruct (negb _); [apply shape_idle|]. simpl.
    eapply shape_write; [done|]. by apply room_step_same.
  - simpl. eapply shape_write; [done|]. by apply room_step_same.
  - destruct (negb _); [apply shape_idle|].
    unfold advance_or_stop. destruct (recommendQueue r); simpl;
      (eapply shape_write; [done|]; by apply room_step_same).
  - destruct (bool_decide _); [apply shape_idle|]. cbv zeta.
    destruct (js_gt_half _ _).
    + unfold advance_or_stop. simpl recommendQueue.
      destruct (recommendQueue r); simpl;
        (eapply shape_write; [done|]; by apply room_step_same).
    + simpl. eapply shape_write; [done|]. by apply room_step_same.
  - destruct (bool_decide _); [apply shape_idle|]. cbv zeta.
    destruct (get_room_Some _ _ _ _ Hg) as [_ Hh].
    destruct (js_ge_half _ _); simpl; right;
      (split; [right; eexists ref, r, _; split; [done|]; split; [|done];
               by apply room_step_same|]);
      (split; [by left|]); right; left; eexists; (split; [done|]); by eexists.
Qed.

Lemma step_shape_holds now a w : step_shape w (fst (step now a w)).
Proof.
  destruct a as [sid e|]; simpl; [apply handle_shape|].
  destruct (timers w) as [|tm rest] eqn:Ht; [apply shape_idle|].
  destruct (t_due tm <=? now)%Z; [|apply shape_idle].
  unfold on_skip_timeout. simpl.
  destruct (heap w !! t_room tm) as [r|] eqn:Hh; simpl; right.
  - split; [right; eexists (t_room tm), r, _; split; [done|]; split; [|done];
            by apply room_step_same|].
    split; [by left|]. right. right. exists tm. by rewrite Ht.
  - split; [by left|]. split; [by left|]. right. right. exists tm. by rewrite Ht.
Qed.

Lemma shape_length w w' : step_shape w w' -> length (heap w) <= length (heap w').
Proof.
  intros [(rid & r0 & _ & -> & _)|([->|(i & r & r' & _ & _ & ->)] & _)].
  - rewrite length_app. lia.
  - done.
  - by rewrite length_insert.
Qed.

Lemma shape_refs w w' : step_shape w w' -> refs_valid w -> refs_valid w'.
Proof.
  intros Hs [Hr Ht]. pose proof (shape_length _ _ Hs) as Hlen.
  unfold refs_valid.
  destruct Hs as [(rid & r0 & _ & Hh & -> & ->)|(Hh & Hrooms & Htimers)].
  - rewrite Hh, length_app. simpl. split.
    + apply om_set_Forall; [simpl; lia|].
      eapply Forall_impl; [done|]. simpl. intros; lia.
    + eapply Forall_impl; [done|]. simpl. intros; lia.
  - split.
    + destruct Hrooms as [->|[k ->]]; [|apply om_delete_Forall];
        (eapply Forall_impl; [done|]; simpl; intros; lia).
    + destruct Htimers as [->|[(tm & -> & Htm)|(tm & Htm)]].
      * eapply Forall_impl; [done|]. simpl. intros; lia.
      * apply Forall_app. split.
        -- eapply Forall_impl; [done|]. simpl. intros; lia.
        -- apply Forall_singleton. destruct Htm as [r Htm].
           apply lookup_lt_Some in Htm. lia.
      * rewrite Htm in Ht. apply Forall_cons in Ht as [_ Ht].
        eapply Forall_impl; [done|]. simpl. intros; lia.
Qed.

Lemma shape_keys w w' : step_shape w w' -> keys_distinct w -> keys_distinct w'.
Proof.
  intros Hs [Hr Hu]. unfold keys_distinct.
  destruct Hs as [(rid & r0 & Hu0 & -> & -> & _)|(Hh & Hrooms & _)].
  - split; [by apply om_set_NoDup|].
    apply Forall_app. split; [done|]. apply Forall_singleton.
    rewrite Hu0. apply NoDup_nil_2.
  - split.
    + destruct Hrooms as [->|[k ->]]; [done|by apply om_delete_NoDup].
    + destruct Hh as [->|(i & r & r' & Hi & (_ & _ & Hus) & ->)]; [done|].
      apply Forall_insert; [done|].
      pose proof (Forall_lookup_1 _ _ _ _ Hu Hi) as Hnd. simpl in Hnd.
      destruct Hus as [->|[(k & v & ->)|(k & ->)]];
        [done | by apply om_set_NoDup | by apply om_delete_NoDup].
Qed.

Lemma shape_owners w w' : step_shape w w' -> owners_kept w w'.
Proof.
  intros Hs j rj Hj.
  destruct Hs as [(rid & r0 & _ & -> & _)|([->|(i & r & r' & Hi & (Hh & Hp & _) & ->)] & _)].
  - exists rj. split; [by apply lookup_app_l_Some|done].
  - by exists rj.
  - destruct (decide (i = j)) as [->|Hne].
    + exists r'. rewrite list_lookup_insert_eq by (by eapply lookup_lt_Some).
      split; [done|]. rewrite Hi in Hj. injection Hj as <-. done.
    + exists rj. by rewrite list_lookup_insert_ne.
Qed.

(** X13. Every state the server reaches from its start is well formed:
    each identifier of the registry and each pending callback refers to a
    room object of the store, the identifiers of the registry are distinct
    and so are the connections of every participants map, and the
    forward and backward tallies of every room are counts. *)
Theorem reachable_well_formed (tr : list (Z * action)) :
  refs_valid (fst (run tr empty_world)) /\
  keys_distinct (fst (run tr empty_world)) /\
  counts_numeric (fst (run tr empty_world)).
Proof.
  assert (H0 : refs_valid empty_world /\ keys_distinct empty_world).
  { repeat split; try by constructor. }
  split; [|split].
  - destruct H0 as [H0 _]. revert H0. generalize empty_world.
    induction tr as [|[now a] tr IH]; intros w Hw; [done|].
    rewrite run_cons. apply IH. eapply shape_refs; [apply step_shape_holds|done].
  - destruct H0 as [_ H0]. revert H0. generalize empty_world.
    induction tr as [|[now a] tr IH]; intros w Hw; [done|].
    rewrite run_cons. apply IH. eapply shape_keys; [apply step_shape_holds|done].
  - apply run_counts. by constructor.
Qed.

(** X14. A room object never changes hands: along every run, each room
    object of the store keeps the host and the password it was created
    with, whatever the events and whoever sends them. *)
Theorem owner_never_changes (tr : list (Z * action)) (w : world) :
  owners_kept w (fst (run tr w)).
Proof.
  revert w. induction tr as [|[now a] tr IH]; intros w.
  - intros i r Hi. by exists r.
  - rewrite run_cons. intros i r Hi.
    destruct (shape_owners _ _ (step_shape_holds now a w) i r Hi)
      as (r1 & Hi1 & Hh1 & Hp1).
    destruct (IH _ i r1 Hi1) as (r2 & Hi2 & Hh2 & Hp2).
    exists r2. split; [done|]. split; congruence.
Qed.

(** ** The playback commands of the host *)

(** X15. The host's video_play, video_pause and video_seek set the
    playing flag, respectively the offset, of its room and leave the video
    and the other of the two alone; the one event they emit goes to the
    group of the room without the host itself, which is never sent back
    its own command. *)
Theorem host_command_not_echoed (now : Z) (sid roomId : string) (w : world)
    (ref : nat) (r : room) :
  get_room w roomId = Some (ref, r) ->
  sid = hostId r ->
  (forall e v m,
     (e = video_play roomId /\ v = true /\ m = out.video_play) \/
     (e = video_pause roomId /\ v = false /\ m = out.video_pause) ->
     exists r',
       get_room (fst (handle now sid e w)) roomId = Some (ref, r') /\
       isPlaying r' = v /\ currentTime r' = currentTime r /\
       videoId r' = videoId r /\
       snd (handle now sid e w) = [(ToRoomExcept roomId sid, m)]) /\
  (forall t,
     exists r',
       get_room (fst (handle now sid (video_seek roomId t) w)) roomId
         = Some (ref, r') /\
       currentTime r' = t /\ isPlaying r' = isPlaying r /\
       videoId r' = videoId r /\
       snd (handle now sid (video_seek roomId t) w)
         = [(ToRoomExcept roomId sid, out.video_seek t)]) /\
  (forall w', sid ∉ recipients w' (ToRoomExcept roomId sid)).
Proof.
  intros Hg ->. split; [|split].
  - intros e v m [(-> & -> & ->)|(-> & -> & ->)]; simpl;
      unfold on_video_play, on_video_pause; rewrite Hg, String.eqb_refl; simpl;
      (eexists; split; [by apply (get_room_put _ _ _ r)|done]).
  - intros t. simpl. unfold on_video_seek. rewrite Hg, String.eqb_refl. simpl.
    eexists; split; [by apply (get_room_put _ _ _ r)|done].
  - intros w'. simpl. rewrite elem_of_difference, elem_of_singleton. tauto.
Qed.

Lemma host_command_not_echoed_witness :
  snd (handle 50 "h" (video_seek "r" 42) joined_world)
    = [(ToRoomExcept "r" "h", out.video_seek 42)] /\
  "h" ∉ recipients joined_world (ToRoomExcept "r" "h").
Proof.
  destruct (host_command_not_echoed 50 "h" "r" joined_world 0 joined_room)
    as (_ & Hseek & Hecho).
  - by vm_compute.
  - by vm_compute.
  - split; [|apply Hecho]. by destruct (Hseek 42%Z) as (r' & _ & _ & _ & _ & Ho).
Defined.

(** X16. The periodic host_current_time_update of the host emits nothing
    and changes only the offset the server keeps, and a connection admitted
    right after is told that offset in its room_data. *)
Theorem time_sync_reaches_joiner (now now' : Z) (host sid roomId nickname : string)
    (pw : option string) (t : Z) (w : world) (ref : nat) (r : room) :
  get_room w roomId = Some (ref, r) ->
  host = hostId r ->
  sid = hostId r \/ truthy_pw (password r) = false \/ pw = password r ->
  snd (handle now host (host_current_time_update roomId t) w) = [] /\
  get_room (fst (handle now host (host_current_time_update roomId t) w)) roomId
    = Some (ref, set_currentTime t r) /\
  exists d,
    head (snd (handle now' sid (join_room roomId nickname pw)
                 (fst (handle now host (host_current_time_update roomId t) w))))
      = Some (ToSocket sid, out.room_data d) /\
    out.rd_currentTime d = t /\ out.rd_isPlaying d = isPlaying r /\
    out.rd_videoId d = videoId r.
Proof.
  intros Hg -> Hc. simpl. unfold on_host_current_time_update.
  rewrite Hg, String.eqb_refl. simpl. split; [done|].
  pose proof (get_room_put _ _ _ _ (set_currentTime t r) Hg) as Hg'.
  split; [done|]. unfold on_join_room. rewrite Hg'.
  rewrite (join_condition_false sid pw (set_currentTime t r)) by done.
  simpl. eexists. split; [reflexivity|]. done.
Qed.

Lemma time_sync_reaches_joiner_witness :
  exists d,
    head (snd (handle 70 "d" (join_room "r" "dan" None)
                 (fst (handle 60 "h" (host_current_time_update "r" 95) joined_world))))
      = Some (ToSocket "d", out.room_data d) /\
    out.rd_currentTime d = 95%Z.
Proof.
  destruct (time_sync_reaches_joiner 60 70 "h" "d" "r" "dan" None 95
              joined_world 0 joined_room) as (_ & _ & d & Hd & Ht & _).
  - by vm_compute.
  - by vm_compute.
  - right. left. by vm_compute.
  - exists d. by split.
Defined.

(** ** The room list *)

Lemma js_slice_nonneg {A : Type} (l : list A) (a b : Z) :
  (0 <= a <= b)%Z ->
  js_slice l a b = take (Z.to_nat b - Z.to_nat a) (drop (Z.to_nat a) l).
Proof.
  intros Hab. unfold js_slice.
  destruct (Z.ltb_spec a 0); [lia|]. destruct (Z.ltb_spec b 0); [lia|].
  destruct (Z.le_gt_cases (Z.of_nat (length l)) a) as [Hge|Hlt].
  - rewrite !drop_ge by lia. by rewrite !take_nil.
  - rewrite (Z.min_l a) by lia.
    destruct (Z.le_gt_cases b (Z.of_nat (length l))) as [Hb|Hb].
    + rewrite (Z.min_l b) by lia. f_equal. lia.
    + rewrite (Z.min_r b) by lia.
      rewrite !take_ge; [done| |]; rewrite length_drop; lia.
Qed.

Lemma room_list_page sid p w :
  (1 <= p)%Z ->
  on_get_room_list sid (Some p) w =
    (ToSocket sid,
     dir.room_list
       (map (list_entry (heap w))
            (take 10 (drop (10 * (Z.to_nat p - 1)) (reverse (rooms w)))))
       (p * 10 <? Z.of_nat (length (rooms w)))%Z).
Proof.
  intros Hp. unfold on_get_room_list, pageSize, om_size.
  change (default 1%Z (Some p)) with p. cbv zeta.
  rewrite js_slice_nonneg by lia.
  replace (Z.to_nat (p * 10) - Z.to_nat ((p - 1) * 10)) with 10 by lia.
  by replace (Z.to_nat ((p - 1) * 10)) with (10 * (Z.to_nat p - 1)) by lia.
Qed.

(** X17. For a page number [p >= 1] the room list has ten entries when
    at least [10 p] rooms exist, the rooms that are left after the first
    [10 (p - 1)] when fewer exist, and none beyond the last room;
    [hasNextPage] is true exactly when more than [10 p] rooms exist. A
    request without a page number is a request for page 1. *)
Theorem room_list_page_size (sid : string) (p : Z) (w : world) :
  (1 <= p)%Z ->
  exists l,
    on_get_room_list sid (Some p) w
      = (ToSocket sid,
         dir.room_list l (p * 10 <? Z.of_nat (length (rooms w)))%Z) /\
    Z.of_nat (length l)
      = Z.max 0 (Z.min 10 (Z.of_nat (length (rooms w)) - 10 * (p - 1))) /\
    on_get_room_list sid None w = on_get_room_list sid (Some 1%Z) w.
Proof.
  intros Hp. rewrite (room_list_page sid p w Hp). eexists. split; [done|].
  split; [|done].
  rewrite length_map, length_take, length_drop, length_reverse. lia.
Qed.

Lemma room_list_page_size_witness :
  (exists l, snd (on_get_room_list "a" (Some 1%Z) many_rooms_world)
             = dir.room_list l true /\ length l = 10) /\
  (exists l, snd (on_get_room_list "a" (Some 3%Z) many_rooms_world)
             = dir.room_list l false /\ length l = 5).
Proof.
  split.
  - destruct (room_list_page_size "a" 1 many_rooms_world) as (l & Hl & Hn & _);
      [lia|].
    exists l. rewrite Hl. split; [by vm_compute|].
    change (length (rooms many_rooms_world)) with 25 in Hn. lia.
  - destruct (room_list_page_size "a" 3 many_rooms_world) as (l & Hl & Hn & _);
      [lia|].
    exists l. rewrite Hl. split; [by vm_compute|].
    change (length (rooms many_rooms_world)) with 25 in Hn. lia.
Defined.

(** X18. The pages of the room list follow one another without gap or
    repetition, the most recently created room first: the first [k] pages
    together list the [10 k] newest identifiers of the registry, from the
    newest to the oldest, each with its lock flag and nothing else of the
    room but the nickname of its host. *)
Theorem room_list_pages_newest_first (sid : string) (k : nat) (w : world) :
  first_pages sid k w
    = map (list_entry (heap w)) (take (10 * k) (reverse (rooms w))) /\
  map dir.roomId (first_pages sid k w)
    = take (10 * k) (reverse (map fst (rooms w))).
Proof.
  assert (H : first_pages sid k w
              = map (list_entry (heap w)) (take (10 * k) (reverse (rooms w)))).
  { unfold first_pages. induction k as [|k IH].
    - done.
    - rewrite seq_S, flat_map_app, IH. cbn [flat_map Nat.add].
      rewrite (room_list_page sid (Z.of_nat (S k)) w) by lia. cbn [snd].
      rewrite app_nil_r, <- map_app.
      replace (10 * (Z.to_nat (Z.of_nat (S k)) - 1)) with (10 * k) by lia.
      rewrite take_take_drop. f_equal. f_equal. lia. }
  split; [done|]. rewrite H, map_map. cbn [list_entry dir.roomId].
  change (map (fun x : string * nat => fst x)
            (take (10 * k) (reverse (rooms w))))
    with (fst <$> take (10 * k) (reverse (rooms w))).
  change (map fst (rooms w)) with (fst <$> rooms w).
  by rewrite fmap_take, fmap_reverse.
Qed.

(** ** The chat *)

(** X19. A chat text of at most ten code units is relayed as it is; a
    longer one is cut to its first ten code units followed by the single
    ellipsis mark, so a relayed text never has more than eleven code
    units, and cutting a text that was already cut changes nothing. *)
Theorem chat_truncation (message : list N) :
  length (truncate_message message) <= 11 /\
  (length message <= 10 -> truncate_message message = message) /\
  (10 < length message ->
     truncate_message message = take 10 message ++ [8230%N] /\
     length (truncate_message message) = 11) /\
  truncate_message (truncate_message message) = truncate_message message.
Proof.
  unfold truncate_message, ellipsis.
  destruct (Nat.ltb_spec 10 (length message)) as [Hlt|Hle].
  - assert (Hlen : length (take 10 message ++ [8230%N]) = 11)
      by (rewrite length_app, length_take; cbn [length]; lia).
    rewrite Hlen. split; [lia|]. split; [lia|]. split; [done|].
    destruct (Nat.ltb_spec 10 11); [|lia].
    rewrite take_app_le by (rewrite length_take; lia).
    by rewrite take_take.
  - split; [lia|]. split; [done|]. split; [lia|].
    by destruct (Nat.ltb_spec 10 (length message)); [lia|].
Qed.

Lemma chat_truncation_witness :
  truncate_message [1; 2; 3; 4; 5; 6; 7; 8; 9; 10; 11; 12]%N
    = [1; 2; 3; 4; 5; 6; 7; 8; 9; 10; 8230]%N.
Proof.
  destruct (chat_truncation [1; 2; 3; 4; 5; 6; 7; 8; 9; 10; 11; 12]%N)
    as (_ & _ & Hcut & _).
  destruct Hcut as [-> _]; [simpl; lia | done].
Defined.

(** X20. In an existing room a chat message is relayed to the whole
    group of the room, the sender included, whoever sends it: under the
    nickname of the sender when it is a participant with a non-empty
    nickname, and under the anonymous label when it is not a participant
    or its nickname is empty. *)
Theorem chat_relayed (sid roomId : string) (message : list N) (w : world)
    (ref : nat) (r : room) :
  get_room w roomId = Some (ref, r) ->
  exists nickname,
    on_chat_message sid roomId message w
      = [(ToRoom roomId,
          dir.chat_message nickname (truncate_message message))] /\
    (forall n, om_get (users r) sid = Some n -> n <> "" -> nickname = n) /\
    (om_get (users r) sid = None \/ om_get (users r) sid = Some "" ->
       nickname = msg_anonymous) /\
    recipients w (ToRoom roomId) = group_of w roomId.
Proof.
  intros Hg. unfold on_chat_message. rewrite Hg. eexists. split; [done|].
  unfold get_or. split; [|split; [|done]].
  - intros n -> Hn. apply String.eqb_neq in Hn. by rewrite Hn.
  - by intros [-> | ->].
Qed.

Lemma chat_relayed_witness :
  on_chat_message "x" "r" [104%N; 105%N] joined_world
    = [(ToRoom "r", dir.chat_message msg_anonymous [104%N; 105%N])] /\
  on_chat_message "a" "r" [104%N; 105%N] joined_world
    = [(ToRoom "r", dir.chat_message "ann" [104%N; 105%N])].
Proof.
  split.
  - destruct (chat_relayed "x" "r" [104%N; 105%N] joined_world 0 joined_room)
      as (n & Hm & _ & Ha & _); [by vm_compute|].
    rewrite Hm, Ha; [done|]. left. by vm_compute.
  - destruct (chat_relayed "a" "r" [104%N; 105%N] joined_world 0 joined_room)
      as (n & Hm & Hn & _); [by vm_compute|].
    rewrite Hm, (Hn "ann"); [done|by vm_compute|done].
Defined.

Lemma js_slice_length {A : Type} (l : list A) (a b : Z) :
  (a <= b)%Z -> (Z.of_nat (length (js_slice l a b)) <= b - a)%Z.
Proof.
  intros Hab. unfold js_slice. cbv zeta. rewrite length_take, length_drop.
  destruct (Z.ltb_spec a 0), (Z.ltb_spec b 0); lia.
Qed.

(** X21. Page numbers below 1 are not rejected: page 0 lists no room
    and says there is a next page as soon as one room exists; a negative
    page lists at most ten rooms and always says there is a next page. *)
Theorem room_list_page_below_one (sid : string) (p : Z) (w : world) :
  (p <= 0)%Z ->
  exists l next,
    on_get_room_list sid (Some p) w = (ToSocket sid, dir.room_list l next) /\
    length l <= 10 /\
    (p = 0%Z -> l = [] /\ next = (0 <? Z.of_nat (length (rooms w)))%Z) /\
    ((p < 0)%Z -> next = true).
Proof.
  intros Hp. unfold on_get_room_list, pageSize, om_size.
  change (default 1%Z (Some p)) with p. cbv zeta.
  eexists _, _. split; [reflexivity|]. split; [|split].
  - rewrite length_map.
    pose proof (js_slice_length (reverse (rooms w)) ((p - 1) * 10) (p * 10)).
    lia.
  - intros ->. split; [|done].
    unfold js_slice. cbv zeta.
    destruct (Z.ltb_spec ((0 - 1) * 10) 0), (Z.ltb_spec (0 * 10) 0); try lia.
    replace (Z.to_nat _) with 0 by lia. done.
  - intros Hneg. apply Z.ltb_lt. lia.
Qed.

Lemma room_list_page_below_one_witness :
  snd (on_get_room_list "a" (Some 0%Z) many_rooms_world) = dir.room_list [] true.
Proof.
  destruct (room_list_page_below_one "a" 0 many_rooms_world)
    as (l & next & Hl & _ & H0 & _); [lia|].
  rewrite Hl. destruct H0 as [-> ->]; [done|]. by vm_compute.
Defined.

(** ** The bore quorum and the end of a video *)

(** X22. A bore vote that reaches its quorum leaves the server exactly
    as the host's video_ended would have: same video, offset, playing
    flag, queue and cleared bore votes, whether the queue is empty or not;
    the room is sent the tally of the vote first and then the very events
    of a video_ended. *)
Theorem bore_quorum_is_video_ended (sid roomId : string) (w : world)
    (ref : nat) (r : room) :
  get_room w roomId = Some (ref, r) ->
  sid ∉ boreVotes r ->
  length (users r) < 2 * S (size (boreVotes r)) ->
  fst (on_bore_vote sid roomId w) = fst (on_video_ended (hostId r) roomId w) /\
  snd (on_bore_vote sid roomId w) =
    (ToRoom roomId, out.bore_vote_update (S (size (boreVotes r))))
      :: snd (on_video_ended (hostId r) roomId w).
Proof.
  intros Hg Hs Hq.
  rewrite (on_bore_vote_accepted sid roomId w ref r Hg Hs). cbv zeta.
  destruct (Nat.ltb_spec (length (users r)) (2 * S (size (boreVotes r))));
    [|lia].
  unfold on_video_ended. rewrite Hg, String.eqb_refl. simpl.
  unfold advance_or_stop.
  by destruct (recommendQueue r) as [|next rest].
Qed.

Lemma bore_quorum_is_video_ended_witness :
  fst (on_bore_vote "c" "r" queued_bored_world)
    = fst (on_video_ended "h" "r" queued_bored_world).
Proof.
  destruct (bore_quorum_is_video_ended "c" "r" queued_bored_world 0
              queued_bored_room) as [Hw _].
  - by vm_compute.
  - by vm_compute.
  - vm_compute. lia.
  - exact Hw.
Defined.
